(** * Centros de Salud RM: the dashboard script [app.py]

    A shallow embedding of the loader [cargar_datos] with its nested
    classifier [clasificar], of the filter and sort block that builds
    [df_filtrado], of the map view [df_mapa] and of the remote client
    [consultar_api_datos_gob], followed by the properties of each.

    Conventions.
    - A Python [str] is the list of its code points.
    - An operation that can raise returns [exc]; [Raise] carries the class
      of the exception.
    - A pandas text column holds [Some s] for a string cell and [None] for
      a missing one (NaN); a column that may be numeric holds a [scalar].
    - Library routines whose code is outside the script ([str.lower],
      [str] of a float, the numeric parser of [pd.to_numeric],
      [re.compile], numpy's [argsort], [requests.get]) are Section
      variables, so that the general statements hold for each of them;
      an executable instance of each is given for the concrete runs.
    - What pandas does around them ([nargsort], [sort_values],
      [pd.DataFrame] on a JSON payload) is written out. *)

From Stdlib Require Import String Ascii Bool Arith ZArith NArith Lia.
From Stdlib Require Import List Permutation Sorted DecimalString.
From Stdlib Require Import Floats.SpecFloat.
Import ListNotations.

Set Implicit Arguments.

(* ================================================================== *)
(** ** Python strings *)

Definition str := list N.

(** [u "..."] reads a literal written in the file's UTF-8 encoding into
    its code points, as the Python parser does for a source literal. *)
Fixpoint utf8_decode (bs : list N) : str :=
  match bs with
  | [] => []
  | b0 :: t =>
      if (b0 <? 128)%N then b0 :: utf8_decode t
      else if (b0 <? 224)%N then
        match t with
        | b1 :: t1 => ((b0 - 192) * 64 + (b1 - 128))%N :: utf8_decode t1
        | _ => []
        end
      else if (b0 <? 240)%N then
        match t with
        | b1 :: b2 :: t2 =>
            ((b0 - 224) * 4096 + (b1 - 128) * 64 + (b2 - 128))%N
              :: utf8_decode t2
        | _ => []
        end
      else
        match t with
        | b1 :: b2 :: b3 :: t3 =>
            ((b0 - 240) * 262144 + (b1 - 128) * 4096
             + (b2 - 128) * 64 + (b3 - 128))%N :: utf8_decode t3
        | _ => []
        end
  end.

Definition u (s : string) : str :=
  utf8_decode (map N_of_ascii (list_ascii_of_string s)).

Arguments u s%_string.

Definition str_eqb (a b : str) : bool :=
  if list_eq_dec N.eq_dec a b then true else false.

(** [a < b] on strings: code points compared lexicographically. *)
Fixpoint str_ltb (a b : str) : bool :=
  match a, b with
  | _, [] => false
  | [], _ :: _ => true
  | x :: a', y :: b' =>
      if (x <? y)%N then true
      else if (y <? x)%N then false
      else str_ltb a' b'
  end.

Definition str_leb (a b : str) : bool := negb (str_ltb b a).

(** [s.startswith(p)] *)
Fixpoint startswith (p s : str) : bool :=
  match p, s with
  | [], _ => true
  | _ :: _, [] => false
  | x :: p', y :: s' => (x =? y)%N && startswith p' s'
  end.

(** [needle in hay] for two strings: substring search. *)
Fixpoint contains (needle hay : str) : bool :=
  startswith needle hay
  || match hay with
     | [] => false
     | _ :: t => contains needle t
     end.

(** The code points for which [str.isspace] holds; [str.strip()] removes
    them from both ends. *)
Definition isspace (c : N) : bool :=
  ((9 <=? c) && (c <=? 13) || (28 <=? c) && (c <=? 32)
   || (c =? 133) || (c =? 160) || (c =? 5760)
   || (8192 <=? c) && (c <=? 8202)
   || (c =? 8232) || (c =? 8233) || (c =? 8239) || (c =? 8287)
   || (c =? 12288))%N.

Fixpoint lstrip (s : str) : str :=
  match s with
  | [] => []
  | c :: t => if isspace c then lstrip t else s
  end.

Definition rstrip (s : str) : str := rev (lstrip (rev s)).

Definition strip (s : str) : str := rstrip (lstrip s).

(** [str(n)] for an [int]. *)
Definition str_of_Z (z : Z) : str :=
  u (NilZero.string_of_int (Z.to_int z)).

(** An instance of [str.lower] for text in Basic Latin and Latin-1
    Supplement, with the one letter of Latin Extended-A whose lower case
    starts with an ASCII letter (U+0130 gives "i" and U+0307). *)
Definition lower_cp (c : N) : list N :=
  if ((65 <=? c) && (c <=? 90))%N then [(c + 32)%N]
  else if ((192 <=? c) && (c <=? 222) && negb (c =? 215))%N then [(c + 32)%N]
  else if (c =? 304)%N then [105%N; 775%N]
  else [c].

Definition lower_latin (s : str) : str := flat_map lower_cp s.

(* ================================================================== *)
(** ** Python values and exceptions *)

Inductive exn : Type :=
| AttributeError
| TypeError
| ValueError
| IndexError
| JSONDecodeError
| ReError.

Inductive exc (A : Type) : Type :=
| Ok (a : A)
| Raise (e : exn).

Arguments Ok {A} a.
Arguments Raise {A} e.

Definition bind {A B : Type} (m : exc A) (k : A -> exc B) : exc B :=
  match m with
  | Ok a => k a
  | Raise e => Raise e
  end.

Declare Scope exc_scope.
Delimit Scope exc_scope with exc.
Notation "x <- m ;; k" := (bind m (fun x => k))
  (at level 61, m at next level, right associativity) : exc_scope.
Local Open Scope exc_scope.

(** [mapM]: a Python loop or [Series.apply] that stops at the first
    exception. *)
Fixpoint mapM {A B : Type} (f : A -> exc B) (l : list A) : exc (list B) :=
  match l with
  | [] => Ok []
  | a :: t => b <- f a ;; bs <- mapM f t ;; Ok (b :: bs)
  end.

(** What [json.loads] can produce, which is also what a cell handed to a
    function by [Series.apply] can be. *)
#[warnings="-register-all"]
Inductive pyval : Type :=
| PyNone
| PyBool (b : bool)
| PyInt (z : Z)
| PyFloat (f : spec_float)
| PyStr (s : str)
| PyList (l : list pyval)
| PyDict (d : list (str * pyval)).

Definition isinstance_str (v : pyval) : bool :=
  match v with
  | PyStr _ => true
  | _ => false
  end.

(** [bool(v)], the test made by [if v] and [not v]. *)
Definition truthy (v : pyval) : bool :=
  match v with
  | PyNone => false
  | PyBool b => b
  | PyInt z => negb (z =? 0)%Z
  | PyFloat (S754_zero _) => false
  | PyFloat _ => true
  | PyStr s => negb (Nat.eqb (length s) 0)
  | PyList l => negb (Nat.eqb (length l) 0)
  | PyDict d => negb (Nat.eqb (length d) 0)
  end.

Fixpoint dict_lookup (k : str) (d : list (str * pyval)) : option pyval :=
  match d with
  | [] => None
  | (k', v) :: t => if str_eqb k k' then Some v else dict_lookup k t
  end.

(** [obj.get(k, default)]: only a [dict] has the method. *)
Definition py_get (obj : pyval) (k : str) (default : pyval) : exc pyval :=
  match obj with
  | PyDict d =>
      match dict_lookup k d with
      | Some v => Ok v
      | None => Ok default
      end
  | _ => Raise AttributeError
  end.

(** A cell of a column that [read_csv] may have typed as text or as
    numbers; a missing value is the float NaN. *)
Inductive scalar : Type :=
| SStr (s : str)
| SInt (z : Z)
| SFloat (f : spec_float).

Definition isna (c : scalar) : bool :=
  match c with
  | SFloat S754_nan => true
  | _ => false
  end.

Definition NaN : scalar := SFloat S754_nan.

Definition py_of_scalar (c : scalar) : pyval :=
  match c with
  | SStr s => PyStr s
  | SInt z => PyInt z
  | SFloat f => PyFloat f
  end.

(* ================================================================== *)
(** ** The sector classifier (app.py, lines 36-46) *)

Definition OTRO : str := u "Otro".
Definition PRIVADO : str := u "Privado".
Definition PUBLICO : str := u "Público".

Section Clasificar.

(** [str.lower] *)
Variable lower : str -> str.

(** [dep.lower()]: the method exists on [str] only. *)
Definition py_lower (dep : pyval) : exc str :=
  match dep with
  | PyStr s => Ok (lower s)
  | _ => Raise AttributeError
  end.

Definition clasificar (dep : pyval) : exc str :=
  if negb (isinstance_str dep) then Ok OTRO
  else
    d <- py_lower dep ;;
    if contains (u "privad") d then Ok PRIVADO
    else if contains (u "municipal") d
            || contains (u "servicio de salud") d
            || contains (u "seremi") d
    then Ok PUBLICO
    else Ok OTRO.

End Clasificar.

(* ================================================================== *)
(** ** The dataset loader (app.py, lines 9-48) *)

(** One line of the CSV file as [pd.read_csv] hands it over. *)
Record fila_csv : Type := {
  RegionGlosa : option str;
  ComunaGlosa : option str;
  EstablecimientoGlosa : option str;
  TipoEstablecimientoGlosa : option str;
  DependenciaAdministrativa : scalar;
  NivelAtencionEstabglosa : option str;
  TipoViaGlosa : option str;
  NombreVia : option str;
  Numero : scalar;
  Latitud_csv : scalar;
  Longitud_csv : scalar;
  TelefonoMovil_TelefonoFijo : option str
}.

(** A numeric cell; the float NaN is the null of a numeric column. *)
Inductive number : Type :=
| NumInt (z : Z)
| NumFloat (f : spec_float).

Definition number_isna (n : number) : bool :=
  match n with
  | NumFloat S754_nan => true
  | _ => false
  end.

(** One row of [df_rm]: the label it keeps from the file ([idx]), the
    columns of the file ([csv]), the two columns that are overwritten and
    the two that are added. *)
Record fila : Type := {
  idx : nat;
  csv : fila_csv;
  Latitud : number;
  Longitud : number;
  Direccion : str;
  SistemaSalud : str
}.

Definition fillna_vacio (c : option str) : str :=
  match c with
  | Some s => s
  | None => []
  end.

(** [Series.str.contains(pat, na=False)] for a pattern without regular
    expression operators, on one cell. *)
Definition str_contains (pat : str) (c : option str) : bool :=
  match c with
  | Some s => contains pat s
  | None => false
  end.

Definition region_metropolitana (r : fila_csv) : bool :=
  str_contains (u "Metropolitana") (RegionGlosa r).

Section CargarDatos.

Variable lower : str -> str.

(** [str(x)] for a float *)
Variable float_str : spec_float -> str.

(** The parser behind [pd.to_numeric]: the number a text denotes, if it
    denotes one. *)
Variable parse_numeric : str -> option number.

(** [pd.to_numeric(col, errors="coerce")] on one cell. *)
Definition to_numeric_coerce (c : scalar) : number :=
  match c with
  | SStr s =>
      match parse_numeric s with
      | Some n => n
      | None => NumFloat S754_nan
      end
  | SInt z => NumInt z
  | SFloat f => NumFloat f
  end.

(** [col.fillna("").astype(str)] on one cell. *)
Definition fillna_astype_str (c : scalar) : str :=
  match c with
  | SStr s => s
  | SInt z => str_of_Z z
  | SFloat S754_nan => []
  | SFloat f => float_str f
  end.

Definition direccion (r : fila_csv) : str :=
  strip ((((fillna_vacio (TipoViaGlosa r) ++ u " ")
             ++ fillna_vacio (NombreVia r)) ++ u " ")
           ++ fillna_astype_str (Numero r)).

Definition derivar (ir : nat * fila_csv) : exc fila :=
  let r := snd ir in
  sistema <- clasificar lower (py_of_scalar (DependenciaAdministrativa r)) ;;
  Ok {| idx := fst ir;
        csv := r;
        Latitud := to_numeric_coerce (Latitud_csv r);
        Longitud := to_numeric_coerce (Longitud_csv r);
        Direccion := direccion r;
        SistemaSalud := sistema |}.

(** [df] is the content of the file; its rows are labelled 0, 1, ... *)
Definition cargar_datos (df : list fila_csv) : exc (list fila) :=
  let df_rm :=
    filter (fun ir => region_metropolitana (snd ir))
           (combine (seq 0 (length df)) df) in
  mapM derivar df_rm.

End CargarDatos.

(* ================================================================== *)
(** ** Sidebar options and the filter selection (app.py, lines 126-143) *)

Fixpoint dropna (col : list (option str)) : list str :=
  match col with
  | [] => []
  | Some s :: t => s :: dropna t
  | None :: t => dropna t
  end.

Definition str_in (s : str) (l : list str) : bool := existsb (str_eqb s) l.

(** [Series.unique()]: the distinct values in order of first appearance. *)
Fixpoint unique_aux (seen : list str) (l : list str) : list str :=
  match l with
  | [] => []
  | s :: t =>
      if str_in s seen then unique_aux seen t
      else s :: unique_aux (s :: seen) t
  end.

Definition unique (l : list str) : list str := unique_aux [] l.

(** [sorted(xs)] on strings. *)
Fixpoint sorted_insert (x : str) (l : list str) : list str :=
  match l with
  | [] => [x]
  | y :: t => if str_ltb y x then y :: sorted_insert x t else x :: l
  end.

Definition sorted (l : list str) : list str := fold_right sorted_insert [] l.

Definition opciones (col : list (option str)) : list str :=
  sorted (unique (dropna col)).

Definition comunas (df : list fila) : list str :=
  opciones (map (fun f => ComunaGlosa (csv f)) df).
Definition tipos (df : list fila) : list str :=
  opciones (map (fun f => TipoEstablecimientoGlosa (csv f)) df).
Definition sistemas (df : list fila) : list str :=
  opciones (map (fun f => Some (SistemaSalud f)) df).
Definition niveles (df : list fila) : list str :=
  opciones (map (fun f => NivelAtencionEstabglosa (csv f)) df).

Record seleccion : Type := {
  nombre_filtro : str;
  comunas_sel : list str;
  tipos_sel : list str;
  sistemas_sel : list str;
  niveles_sel : list str;
  orden_campo : str;
  orden_dir : str
}.

(** The state of the widgets before any interaction: an empty text box,
    every multiselect at [default=] its full option list, the first entry
    of the select box and of the radio. *)
Definition seleccion_inicial (df : list fila) : seleccion :=
  {| nombre_filtro := [];
     comunas_sel := comunas df;
     tipos_sel := tipos df;
     sistemas_sel := sistemas df;
     niveles_sel := niveles df;
     orden_campo := u "Nombre";
     orden_dir := u "A → Z" |}.

(** [Series.isin(values)] on one cell: a missing cell is in no list of
    strings. *)
Definition isin (c : option str) (values : list str) : bool :=
  match c with
  | Some s => str_in s values
  | None => false
  end.

Definition columna_orden (sel : seleccion) : fila -> option str :=
  if str_eqb (orden_campo sel) (u "Nombre")
  then fun f => EstablecimientoGlosa (csv f)
  else fun f => ComunaGlosa (csv f).

Definition asc (sel : seleccion) : bool := startswith (u "A") (orden_dir sel).

(* ================================================================== *)
(** ** Sorting as pandas does it *)

(** [arr[indexer]]: positional selection; a position outside the array
    is an [IndexError]. *)
Fixpoint take {A : Type} (arr : list A) (indexer : list nat) : exc (list A) :=
  match indexer with
  | [] => Ok []
  | i :: t =>
      match nth_error arr i with
      | Some x => xs <- take arr t ;; Ok (x :: xs)
      | None => Raise IndexError
      end
  end.

(** The positions of the cells that are missing, and of those that are
    not, counted from [i]. *)
Fixpoint nan_positions (i : nat) (items : list (option str)) : list nat :=
  match items with
  | [] => []
  | None :: t => i :: nan_positions (S i) t
  | Some _ :: t => nan_positions (S i) t
  end.

Fixpoint non_nan_positions (i : nat) (items : list (option str)) : list nat :=
  match items with
  | [] => []
  | None :: t => non_nan_positions (S i) t
  | Some _ :: t => i :: non_nan_positions (S i) t
  end.

Section SortValues.

(** [ndarray.argsort(kind="quicksort")] on an array of strings. *)
Variable argsort : list str -> list nat.

(** [pandas.core.sorting.nargsort] with [na_position="last"]: the
    missing cells are set aside, the others are argsorted (on the
    reversed array when descending, and the result reversed back), and
    the missing ones are appended. *)
Definition nargsort (items : list (option str)) (ascending : bool)
  : exc (list nat) :=
  let non_nans := dropna items in
  let non_nan_idx := non_nan_positions 0 items in
  let nan_idx := nan_positions 0 items in
  let non_nans := if ascending then non_nans else rev non_nans in
  let non_nan_idx := if ascending then non_nan_idx else rev non_nan_idx in
  indexer <- take non_nan_idx (argsort non_nans) ;;
  let indexer := if ascending then indexer else rev indexer in
  Ok (indexer ++ nan_idx).

(** [frame.sort_values(by=col, ascending=asc)] *)
Definition sort_values (by_ : fila -> option str) (ascending : bool)
           (frame : list fila) : exc (list fila) :=
  indexer <- nargsort (map by_ frame) ascending ;;
  take frame indexer.

End SortValues.

(* ================================================================== *)
(** ** The filter and sort block (app.py, lines 146-160) *)

Definition cumple_filtros (sel : seleccion) (f : fila) : bool :=
  isin (ComunaGlosa (csv f)) (comunas_sel sel)
  && isin (TipoEstablecimientoGlosa (csv f)) (tipos_sel sel)
  && isin (Some (SistemaSalud f)) (sistemas_sel sel)
  && isin (NivelAtencionEstabglosa (csv f)) (niveles_sel sel).

Section FiltrarOrdenar.

(** [re.compile(pat, re.IGNORECASE)], returning the test
    [regex.search(s) is not None]: [Series.str.contains] treats its
    pattern as a regular expression. *)
Variable re_search_ci : str -> exc (str -> bool).

Variable argsort : list str -> list nat.

(** [Series.str.contains(pat, case=False, na=False)] on one cell, with
    the pattern already compiled. *)
Definition nombre_coincide (busca : str -> bool) (f : fila) : bool :=
  match EstablecimientoGlosa (csv f) with
  | Some s => busca s
  | None => false
  end.

(** Lines 146-158. *)
Definition filtrar (df0 : list fila) (sel : seleccion) : exc (list fila) :=
  let df_filtrado0 := df0 in
  df_filtrado1 <-
    (if negb (Nat.eqb (length (nombre_filtro sel)) 0) then
       busca <- re_search_ci (nombre_filtro sel) ;;
       Ok (filter (nombre_coincide busca) df_filtrado0)
     else Ok df_filtrado0) ;;
  Ok (filter (cumple_filtros sel) df_filtrado1).

(** Lines 146-160. *)
Definition filtrar_ordenar (df0 : list fila) (sel : seleccion)
  : exc (list fila) :=
  df_filtrado2 <- filtrar df0 sel ;;
  sort_values argsort (columna_orden sel) (asc sel) df_filtrado2.

End FiltrarOrdenar.

(** Lines 179 and 205-206: the rows drawn on the map and the rows shown
    in the table. *)
Definition df_mapa (df_filtrado0 : list fila) : list fila :=
  filter (fun f => negb (number_isna (Latitud f))
                   && negb (number_isna (Longitud f))) df_filtrado0.

Definition columnas_tabla (f : fila)
  : option str * option str * option str * str * str * option str
    * option str :=
  (EstablecimientoGlosa (csv f), TipoEstablecimientoGlosa (csv f),
   ComunaGlosa (csv f), Direccion f, SistemaSalud f,
   NivelAtencionEstabglosa (csv f), TelefonoMovil_TelefonoFijo (csv f)).

Definition tabla (df_filtrado0 : list fila) := map columnas_tabla df_filtrado0.

(* ================================================================== *)
(** ** numpy's default argsort

    [argsort(kind="quicksort")] on an object array, which is what a
    text column of the CSV is under pandas 2, runs the generic
    [npy_aquicksort]: an introsort on the array [tosort] of positions,
    comparing the strings they point to.  The loops of the C routine are
    written with a fuel that the length of the array covers.  It is one
    instance of the parameter [argsort]; under the string type of
    pandas 3 the column is sorted by another routine. *)

Module Numpy.

(** A range of at most sixteen positions goes to the insertion sort: the
    partition loop runs while [pr - pl] exceeds this bound. *)
Definition SMALL_QUICKSORT : nat := 15.

Definition get (a : list nat) (i : nat) : nat := nth i a 0.

Fixpoint set (a : list nat) (i x : nat) : list nat :=
  match a, i with
  | [], _ => []
  | _ :: t, 0 => x :: t
  | y :: t, S i' => y :: set t i' x
  end.

Definition swap (a : list nat) (i j : nat) : list nat :=
  set (set a i (get a j)) j (get a i).

Section Sort.

Variable v : list str.

Definition val (k : nat) : str := nth k v [].

(** [cmp(x, y) < 0] *)
Definition less (x y : str) : bool := str_ltb x y.

(** [do { ++pi; } while (less(v[*pi], vp));] *)
Fixpoint scan_right (fuel : nat) (a : list nat) (vp : str) (pi : nat)
  : nat :=
  match fuel with
  | 0 => S pi
  | S fuel' =>
      if less (val (get a (S pi))) vp
      then scan_right fuel' a vp (S pi)
      else S pi
  end.

(** [do { --pj; } while (less(vp, v[*pj]));] *)
Fixpoint scan_left (fuel : nat) (a : list nat) (vp : str) (pj : nat)
  : nat :=
  match fuel with
  | 0 => pred pj
  | S fuel' =>
      if less vp (val (get a (pred pj)))
      then scan_left fuel' a vp (pred pj)
      else pred pj
  end.

(** The [for (;;)] loop of the partition; returns the array and [pi]. *)
Fixpoint partition (fuel : nat) (a : list nat) (vp : str) (pi pj : nat)
  : list nat * nat :=
  match fuel with
  | 0 => (a, pi)
  | S fuel' =>
      let pi := scan_right (length a) a vp pi in
      let pj := scan_left (length a) a vp pj in
      if pj <=? pi then (a, pi)
      else partition fuel' (swap a pi pj) vp pi pj
  end.

(** [while ((pr - pl) > SMALL_QUICKSORT)]: median of three, partition,
    push the larger part with the decremented depth, go on with the
    smaller one. *)
Fixpoint quick_loop (fuel : nat) (a : list nat) (pl pr : nat)
         (stack : list (nat * nat * Z)) (cdepth : Z)
  : list nat * nat * nat * list (nat * nat * Z) :=
  match fuel with
  | 0 => (a, pl, pr, stack)
  | S fuel' =>
      if SMALL_QUICKSORT <? pr - pl then
        let pm := pl + (pr - pl) / 2 in
        let a := if less (val (get a pm)) (val (get a pl))
                 then swap a pm pl else a in
        let a := if less (val (get a pr)) (val (get a pm))
                 then swap a pr pm else a in
        let a := if less (val (get a pm)) (val (get a pl))
                 then swap a pm pl else a in
        let vp := val (get a pm) in
        let pi := pl in
        let pj := pr - 1 in
        let a := swap a pm pj in
        let '(a, pi) := partition (length a) a vp pi pj in
        let pk := pr - 1 in
        let a := swap a pi pk in
        let cdepth := (cdepth - 1)%Z in
        if pi - pl <? pr - pi
        then quick_loop fuel' a pl (pi - 1)
                        ((pi + 1, pr, cdepth) :: stack) cdepth
        else quick_loop fuel' a (pi + 1) pr
                        ((pl, pi - 1, cdepth) :: stack) cdepth
      else (a, pl, pr, stack)
  end.

(** [while (pj > pl && less(vp, v[*pk])) { *pj-- = *pk--; }] *)
Fixpoint shift (fuel : nat) (a : list nat) (vp : str) (pl pj : nat)
  : list nat * nat :=
  match fuel with
  | 0 => (a, pj)
  | S fuel' =>
      if (pl <? pj) && less vp (val (get a (pj - 1)))
      then shift fuel' (set a pj (get a (pj - 1))) vp pl (pj - 1)
      else (a, pj)
  end.

(** [for (pi = pl + 1; pi <= pr; ++pi)]: the insertion sort. *)
Fixpoint insertion (fuel : nat) (a : list nat) (pl pr pi : nat)
  : list nat :=
  match fuel with
  | 0 => a
  | S fuel' =>
      if pi <=? pr then
        let vi := get a pi in
        let '(a', pj) := shift (length a) a (val vi) pl pi in
        insertion fuel' (set a' pj vi) pl pr (S pi)
      else a
  end.

(** The sift-down loop of [npy_aheapsort]; the heap is the slice that
    starts at [pl], addressed from 1. *)
Fixpoint sift (fuel : nat) (a : list nat) (pl n tmp i j : nat)
  : list nat * nat :=
  match fuel with
  | 0 => (a, i)
  | S fuel' =>
      if j <=? n then
        let j := if (j <? n)
                    && less (val (get a (pl + j - 1)))
                            (val (get a (pl + j)))
                 then S j else j in
        if less (val tmp) (val (get a (pl + j - 1)))
        then sift fuel' (set a (pl + i - 1) (get a (pl + j - 1)))
                  pl n tmp j (j + j)
        else (a, i)
      else (a, i)
  end.

Fixpoint heapify (fuel : nat) (a : list nat) (pl n l : nat) : list nat :=
  match fuel with
  | 0 => a
  | S fuel' =>
      if 0 <? l then
        let tmp := get a (pl + l - 1) in
        let '(a', i) := sift (length a) a pl n tmp l (l + l) in
        heapify fuel' (set a' (pl + i - 1) tmp) pl n (l - 1)
      else a
  end.

Fixpoint heap_extract (fuel : nat) (a : list nat) (pl n : nat)
  : list nat :=
  match fuel with
  | 0 => a
  | S fuel' =>
      if 1 <? n then
        let tmp := get a (pl + n - 1) in
        let a := set a (pl + n - 1) (get a pl) in
        let n := n - 1 in
        let '(a', i) := sift (length a) a pl n tmp 1 2 in
        heap_extract fuel' (set a' (pl + i - 1) tmp) pl n
      else a
  end.

Definition aheapsort (a : list nat) (pl n : nat) : list nat :=
  heap_extract (S n) (heapify (S n) a pl n (n / 2)) pl n.

(** The [while (1)] loop with its stack of pending ranges. *)
Fixpoint outer_loop (fuel : nat) (a : list nat) (pl pr : nat)
         (stack : list (nat * nat * Z)) (cdepth : Z) : list nat :=
  match fuel with
  | 0 => a
  | S fuel' =>
      let '(a, stack) :=
        if (cdepth <? 0)%Z then (aheapsort a pl (pr - pl + 1), stack)
        else
          let '(a, pl', pr', stack') :=
            quick_loop (length a) a pl pr stack cdepth in
          (insertion (length a) a pl' pr' (S pl'), stack')
      in
      match stack with
      | [] => a
      | (pl2, pr2, d) :: rest => outer_loop fuel' a pl2 pr2 rest d
      end
  end.

Definition npy_aquicksort (tosort : list nat) : list nat :=
  let num := length tosort in
  outer_loop (S num) tosort 0 (num - 1) []
             (Z.log2 (Z.of_nat num) * 2)%Z.

End Sort.

(** [arr.argsort(kind="quicksort")]: the positions 0..n-1, sorted. *)
Definition argsort (v : list str) : list nat :=
  npy_aquicksort v (seq 0 (length v)).

End Numpy.

(* ================================================================== *)
(** ** The frame built from a JSON payload

    [pd.DataFrame(data)] on what [json.loads] can return: the row labels,
    the column labels and the cells.  pandas gives each column a type of
    its own, chosen from all the objects of the column, so a cell is
    described by the objects its column is built from and by its row;
    what the typed cell holds is not described. *)

Inductive label : Type :=
| Lstr (s : str)
| Lint (n : nat).

(** The cell at row [i] of the column built from the objects [col]. *)
Definition cell : Type := (list pyval * nat)%type.

Record DataFrame : Type := {
  index : list label;
  columns : list label;
  values : list (list cell)
}.

Definition RangeIndex (n : nat) : list label := map Lint (seq 0 n).

Definition frame_vacio : DataFrame :=
  {| index := []; columns := []; values := [] |}.

Definition py_nan : pyval := PyFloat S754_nan.

(** The rows of a frame of [n] rows whose columns are built from the
    lists of objects [cols]. *)
Definition celdas (n : nat) (cols : list (list pyval)) : list (list cell) :=
  map (fun i => map (fun col => (col, i)) cols) (seq 0 n).

Definition keys_of (v : pyval) : exc (list str) :=
  match v with
  | PyDict d => Ok (map fst d)
  | _ => Raise AttributeError
  end.

Definition lookup_or_nan (c : str) (v : pyval) : pyval :=
  match v with
  | PyDict d =>
      match dict_lookup c d with
      | Some x => x
      | None => py_nan
      end
  | _ => py_nan
  end.

(** A list whose first element is a dict: one row per element, the
    columns are the keys met, in order of first appearance, a column
    being built from the value each element gives to the key, NaN when
    it gives none; an element without [keys()] is an [AttributeError]. *)
Definition frame_of_dicts (l : list pyval) : exc DataFrame :=
  ks <- mapM keys_of l ;;
  let cols := unique (concat ks) in
  Ok {| index := RangeIndex (length l);
        columns := map Lstr cols;
        values :=
          celdas (length l)
                 (map (fun c => map (lookup_or_nan c) l) cols) |}.

(** [list(row)], for the rows that have a length. *)
Definition row_items (v : pyval) : exc (list pyval) :=
  match v with
  | PyList r => Ok r
  | PyDict d => Ok (map (fun kv => PyStr (fst kv)) d)
  | PyStr s => Ok (map (fun c => PyStr [c]) s)
  | _ => Raise TypeError
  end.

Definition pad (k : nat) (row : list pyval) : list pyval :=
  row ++ repeat PyNone (k - length row).

(** A list whose first element is a list: one row per element, as many
    columns as the longest row, the columns being built from the rows
    completed with [None]. *)
Definition frame_of_lists (l : list pyval) : exc DataFrame :=
  rows <- mapM row_items l ;;
  let k := fold_right Nat.max 0 (map (@length pyval) rows) in
  Ok {| index := RangeIndex (length l);
        columns := RangeIndex k;
        values :=
          celdas (length l)
                 (map (fun j => map (fun r => nth j (pad k r) PyNone) rows)
                      (seq 0 k)) |}.

(** A dict of columns.  The row labels come from the columns that are
    lists (which must agree on their length) or from the keys of the
    columns that are dicts; the two do not mix, and a dict with scalar
    values only has no row labels to offer.  A scalar fills its
    column. *)
Definition frame_of_columns (d : list (str * pyval)) : exc DataFrame :=
  let indexes :=
    flat_map (fun kv => match snd kv with
                        | PyDict e => [map fst e]
                        | _ => []
                        end) d in
  let raw_lengths :=
    flat_map (fun kv => match snd kv with
                        | PyList l => [length l]
                        | _ => []
                        end) d in
  match d, raw_lengths, indexes with
  | [], _, _ => Ok frame_vacio
  | _, [], [] => Raise ValueError
  | _, n :: rest, [] =>
      if forallb (Nat.eqb n) rest then
        Ok {| index := RangeIndex n;
              columns := map (fun kv => Lstr (fst kv)) d;
              values :=
                celdas n
                       (map (fun kv => match snd kv with
                                       | PyList l => l
                                       | x => repeat x n
                                       end) d) |}
      else Raise ValueError
  | _, _ :: _, _ :: _ => Raise ValueError
  | _, [], _ :: _ =>
      let labels := unique (concat indexes) in
      Ok {| index := map Lstr labels;
            columns := map (fun kv => Lstr (fst kv)) d;
            values :=
              celdas (length labels)
                     (map (fun kv =>
                             match snd kv with
                             | PyDict _ =>
                                 map (fun k => lookup_or_nan k (snd kv)) labels
                             | x => repeat x (length labels)
                             end) d) |}
  end.

Definition pd_DataFrame (data : pyval) : exc DataFrame :=
  match data with
  | PyNone => Ok frame_vacio
  | PyList [] => Ok frame_vacio
  | PyList ((PyList _ :: _) as l) => frame_of_lists l
  | PyList ((PyDict _ :: _) as l) => frame_of_dicts l
  | PyList l =>
      Ok {| index := RangeIndex (length l);
            columns := RangeIndex 1;
            values := celdas (length l) [l] |}
  | PyDict d => frame_of_columns d
  | _ => Raise ValueError
  end.

(** [len(df)] *)
Definition len (t : DataFrame) : nat := length (index t).

(* ================================================================== *)
(** ** The remote query client (app.py, lines 55-82) *)

Inductive nivel : Type :=
| st_error
| st_warning
| st_info.

(** A message put on the page. *)
Definition aviso : Type := (nivel * str)%type.

Record Response : Type := {
  status_code : Z;
  json : exc pyval      (* what [r.json()] does *)
}.

(** What [requests.get] does: it returns a response or raises a
    [RequestException], of which [e] is the text. *)
Inductive get_result : Type :=
| Respuesta (r : Response)
| RequestException (e : str).

(** A computation that writes messages on the page and then returns or
    raises. *)
Definition ui (A : Type) : Type := (list aviso * exc A)%type.

Definition ui_bind {A B : Type} (m : ui A) (k : A -> ui B) : ui B :=
  match m with
  | (w, Ok a) => let '(w', r) := k a in (w ++ w', r)
  | (w, Raise e) => (w, Raise e)
  end.

Definition ui_ret {A : Type} (a : A) : ui A := ([], Ok a).
Definition ui_lift {A : Type} (m : exc A) : ui A := ([], m).
Definition st_write (n : nivel) (msg : str) : ui unit := ([(n, msg)], Ok tt).

Declare Scope ui_scope.
Delimit Scope ui_scope with ui.
Notation "x <~ m ;; k" := (ui_bind m (fun x => k))
  (at level 61, m at next level, right associativity) : ui_scope.
Notation "m ;;; k" := (ui_bind m (fun _ => k))
  (at level 61, right associativity) : ui_scope.
Local Open Scope ui_scope.

Definition URL : str := u "https://datos.gob.cl/api/3/action/datastore_search".

(** Line 77: [data.get("result", {}).get("records", [])] *)
Definition get_records (data : pyval) : exc pyval :=
  result <- py_get data (u "result") (PyDict []) ;;
  py_get result (u "records") (PyList []).

Section ConsultarApi.

(** [requests.get(url, params=params, timeout=10)] *)
Variable requests_get : str -> list (str * pyval) -> Z -> get_result.

Definition consultar_api_datos_gob (resource_id : str) (limit : Z)
  : ui (option DataFrame) :=
  let params := [(u "resource_id", PyStr resource_id);
                 (u "limit", PyInt limit)] in
  match requests_get URL params 10 with
  | RequestException e =>
      st_write st_error (u "Error de conexión con datos.gob.cl: " ++ e) ;;;
      ui_ret None
  | Respuesta r =>
      if negb (status_code r =? 200)%Z then
        st_write st_error
          (u "Error al obtener datos (status code "
             ++ str_of_Z (status_code r) ++ u ").") ;;;
        ui_ret None
      else
        data <~ ui_lift (json r) ;;
        success <~ ui_lift (py_get data (u "success") (PyBool false)) ;;
        if negb (truthy success) then
          st_write st_warning
            (u "La API respondió pero 'success' es False. Revisa el resource_id.") ;;;
          ui_ret None
        else
          records <~ ui_lift (get_records data) ;;
          if negb (truthy records) then
            st_write st_info
              (u "La API no devolvió registros para este recurso.") ;;;
            ui_ret None
          else
            t <~ ui_lift (pd_DataFrame records) ;;
            ui_ret (Some t)
  end.

End ConsultarApi.

(* ================================================================== *)
(** ** Instances of the library routines and sample data *)

(** A numeric parser that reads integer literals: an optional sign and
    ASCII digits. *)
Fixpoint digits_value (acc : Z) (s : str) : option Z :=
  match s with
  | [] => Some acc
  | c :: t =>
      if ((48 <=? c) && (c <=? 57))%N
      then digits_value (acc * 10 + Z.of_N (c - 48)) t
      else None
  end.

Definition parse_entero (s : str) : option number :=
  match s with
  | [] => None
  | 45%N :: (_ :: _) as t => option_map (fun z => NumInt (- z)) (digits_value 0 t)
  | _ => option_map NumInt (digits_value 0 s)
  end.

(** The exact decimal expansion of a float, which is what [str] prints
    for whole numbers of moderate size and for short binary fractions. *)
Definition float_decimal (f : spec_float) : str :=
  match f with
  | S754_zero false => u "0.0"
  | S754_zero true => u "-0.0"
  | S754_infinity false => u "inf"
  | S754_infinity true => u "-inf"
  | S754_nan => u "nan"
  | S754_finite sg m e =>
      let signo := if sg then u "-" else [] in
      match e with
      | Zneg k =>
          let den := (10 ^ Zpos k)%Z in
          let num := (Zpos m * 5 ^ Zpos k)%Z in
          let frac := str_of_Z (den + num mod den) in
          signo ++ str_of_Z (num / den) ++ u "." ++ tl frac
      | _ => signo ++ str_of_Z (Zpos m * 2 ^ e) ++ u ".0"
      end
  end.

(** A regular expression engine for patterns without operators: the
    pattern is searched as it stands, ignoring case; a pattern that has
    an operator character is refused. *)
Definition re_metachar (c : N) : bool :=
  existsb (N.eqb c) (u ".^$*+?{}[]\|()").

Definition re_literal (pat : str) : exc (str -> bool) :=
  if existsb re_metachar pat then Raise ReError
  else Ok (fun s => contains (lower_latin pat) (lower_latin s)).

(** A line of the file with the given region, commune, name,
    dependency, street name and latitude; the street type is "Calle",
    the number 12, the longitude -70. *)
Definition linea (region comuna nombre : option str) (dep : scalar)
           (via : option str) (lat : scalar) : fila_csv :=
  {| RegionGlosa := region;
     ComunaGlosa := comuna;
     EstablecimientoGlosa := nombre;
     TipoEstablecimientoGlosa := Some (u "Consultorio");
     DependenciaAdministrativa := dep;
     NivelAtencionEstabglosa := Some (u "Primario");
     TipoViaGlosa := Some (u "Calle");
     NombreVia := via;
     Numero := SInt 12;
     Latitud_csv := lat;
     Longitud_csv := SInt (-70);
     TelefonoMovil_TelefonoFijo := None |}.

Definition RM : option str := Some (u "Metropolitana de Santiago").

Definition csv_ejemplo : list fila_csv :=
  [ linea RM (Some (u "Maipú")) (Some (u "Beta")) (SStr (u "Municipal"))
          (Some (u "Pajaritos")) (SStr (u "-33"));
    linea (Some (u "Valparaíso")) (Some (u "Quilpué")) (Some (u "Gamma"))
          (SStr (u "Servicio de Salud")) (Some (u "Los Carrera")) (SInt (-33));
    linea RM None (Some (u "Alpha")) (SStr (u "Privado"))
          None (SStr (u "not-a-number"));
    linea None (Some (u "Maipú")) (Some (u "Delta")) NaN
          (Some (u "Central")) (SInt (-33)) ].


Definition cargar (l : list fila_csv) : list fila :=
  match cargar_datos lower_latin float_decimal parse_entero l with
  | Ok rows => rows
  | Raise _ => []
  end.

Definition df_ejemplo : list fila := Eval vm_compute in cargar csv_ejemplo.


(** Responses of the remote service. *)
Definition responde (r : Response) : str -> list (str * pyval) -> Z -> get_result :=
  fun _ _ _ => Respuesta r.

Definition cuerpo (records : pyval) : pyval :=
  PyDict [(u "success", PyBool true);
          (u "result", PyDict [(u "records", records)])].

(* ================================================================== *)
(** ** The summary, the map and the chart (app.py, lines 165-188) *)

(** [int((df_filtrado["SistemaSalud"] == s).sum())] *)
Definition cuenta_sistema (s : str) (df_filtrado0 : list fila) : nat :=
  length (filter (fun f => str_eqb (SistemaSalud f) s) df_filtrado0).

(** The three metrics of lines 168-170: total, public, private. *)
Definition metricas (df_filtrado0 : list fila) : nat * nat * nat :=
  (length df_filtrado0,
   cuenta_sistema (u "Público") df_filtrado0,
   cuenta_sistema (u "Privado") df_filtrado0).

(** What the map column shows. *)
Inductive col_mapa : Type :=
| MapaInfo (msg : str)
| Mapa (puntos : list (number * number)) (zoom : Z).

(** Lines 179-184. A frame with columns is [empty] when it has no
    rows. *)
Definition mostrar_mapa (df_filtrado0 : list fila) : col_mapa :=
  let df_mapa0 := df_mapa df_filtrado0 in
  if Nat.eqb (length df_mapa0) 0 then
    MapaInfo (u "No hay establecimientos con coordenadas para los filtros seleccionados.")
  else
    Mapa (map (fun f => (Latitud f, Longitud f)) df_mapa0) 10.

(** The number of cells equal to [s]. *)
Fixpoint contar (s : str) (l : list str) : nat :=
  match l with
  | [] => 0
  | x :: t => (if str_eqb x s then 1 else 0) + contar s t
  end.

Section TopComunas.

(** [ndarray.argsort(kind="quicksort")] on an array of counts. *)
Variable argsort_int : list nat -> list nat.

(** [Series.value_counts()]: the missing cells are dropped, the distinct
    values are counted in order of first appearance, and the counts are
    sorted in descending order as [nargsort] does it: argsort of the
    reversed array, turned around. *)
Definition value_counts (col : list (option str)) : exc (list (str * nat)) :=
  let values := dropna col in
  let keys := unique values in
  let counts := map (fun k => contar k values) keys in
  let idx := seq 0 (length counts) in
  indexer <- take (rev idx) (argsort_int (rev counts)) ;;
  take (combine keys counts) (rev indexer).

(** Line 187: [df_filtrado["ComunaGlosa"].value_counts().head(5)] *)
Definition top_comunas (df_filtrado0 : list fila) : exc (list (str * nat)) :=
  conteos <- value_counts (map (fun f => ComunaGlosa (csv f)) df_filtrado0) ;;
  Ok (firstn 5 conteos).

End TopComunas.

(* ================================================================== *)
(** ** The feedback box and the query panel (app.py, lines 214-248) *)

(** What a button handler puts on the page. *)
Inductive elemento : Type :=
| Success (msg : str)
| Warning (msg : str)
| Write (texto : str)
| Dataframe (t : DataFrame).

(** Lines 216-220, once the button is pressed. *)
Definition enviar_feedback (texto_feedback : str) : elemento :=
  if negb (Nat.eqb (length (strip texto_feedback)) 0)
  then Success (u "¡Gracias por tu feedback! (solo se muestra en pantalla, no se guarda).")
  else Warning (u "Por favor, escribe algo antes de enviar.").

(** [df.empty]: one of the two axes has length zero. *)
Definition empty (t : DataFrame) : bool :=
  Nat.eqb (length (index t)) 0 || Nat.eqb (length (columns t)) 0.

Definition MSG_SIN_REGISTROS : str :=
  u "La API no devolvió registros para mostrar.".

Section PanelApi.

Variable requests_get : str -> list (str * pyval) -> Z -> get_result.

(** Lines 240-248, once the button is pressed. *)
Definition consultar_boton (resource_id_input : str) (limite_api : Z)
  : ui (list elemento) :=
  df_api <~ consultar_api_datos_gob requests_get (strip resource_id_input)
                                    limite_api ;;
  match df_api with
  | Some t =>
      if negb (empty t) then
        ui_ret [Success (u "Datos obtenidos correctamente desde la API.");
                Write (u "Filas totales recibidas: **"
                         ++ str_of_Z (Z.of_nat (len t)) ++ u "**");
                Dataframe t]
      else ui_ret [Warning MSG_SIN_REGISTROS]
  | None => ui_ret [Warning MSG_SIN_REGISTROS]
  end.

End PanelApi.

(** An argsort on counts for the concrete runs: the positions, inserted
    one by one after the positions of the counts that are not greater.
    The order numpy gives to equal counts is not described. *)
Fixpoint insertar_posicion (counts : list nat) (i : nat) (p : list nat)
  : list nat :=
  match p with
  | [] => [i]
  | j :: t =>
      if nth i counts 0 <? nth j counts 0 then i :: p
      else j :: insertar_posicion counts i t
  end.

Definition argsort_conteos (counts : list nat) : list nat :=
  fold_left (fun p i => insertar_posicion counts i p)
            (seq 0 (length counts)) [].

(* ================================================================== *)
(** ** Vocabulary of the statements *)

(** The classifier as a plain function of its argument, once the
    possibility of an exception is ruled out. *)
Definition sector (lower : str -> str) (dep : pyval) : str :=
  match dep with
  | PyStr s =>
      let d := lower s in
      if contains (u "privad") d then PRIVADO
      else if contains (u "municipal") d
              || contains (u "servicio de salud") d
              || contains (u "seremi") d
      then PUBLICO
      else OTRO
  | _ => OTRO
  end.

(** [m'] is [m], written in lower-case ASCII letters, with some of its
    letters in upper case. *)
Definition variante (m m' : str) : Prop :=
  Forall2 (fun a b => lower_cp a = [a]
                      /\ (b = a \/ ((97 <=? a) && (a <=? 122) = true
                                    /\ b = a - 32))%N)
          m m'.

(** The row that [derivar] returns. *)
Definition fila_derivada (lower : str -> str) (float_str : spec_float -> str)
           (parse_numeric : str -> option number) (ir : nat * fila_csv)
  : fila :=
  {| idx := fst ir;
     csv := snd ir;
     Latitud := to_numeric_coerce parse_numeric (Latitud_csv (snd ir));
     Longitud := to_numeric_coerce parse_numeric (Longitud_csv (snd ir));
     Direccion := direccion float_str (snd ir);
     SistemaSalud :=
       sector lower (py_of_scalar (DependenciaAdministrativa (snd ir))) |}.

(** A string has clean ends when neither its first nor its last
    character is white space. *)
Definition extremos_limpios (s : str) : Prop :=
  match s with
  | [] => True
  | c :: _ => isspace c = false
  end
  /\ match rev s with
     | [] => True
     | c :: _ => isspace c = false
     end.

(** [Series.notna()] on one cell. *)
Definition presente (c : option str) : bool :=
  match c with
  | Some _ => true
  | None => false
  end.

(** The rows in which commune, type and care level are all filled in. *)
Definition sin_nulos (f : fila) : bool :=
  presente (ComunaGlosa (csv f))
  && presente (TipoEstablecimientoGlosa (csv f))
  && presente (NivelAtencionEstabglosa (csv f)).

(** What an argsort owes its caller: the positions of the array, each
    once, in an order in which the values do not decrease. *)
Definition es_argsort (v : list str) (p : list nat) : Prop :=
  Permutation p (seq 0 (length v))
  /\ StronglySorted
       (fun i j => str_leb (nth i v []) (nth j v []) = true) p.

(** The array that [sort_values] hands to [argsort]. *)
Definition claves_argsort (by_ : fila -> option str) (ascending : bool)
           (frame : list fila) : list str :=
  let non_nans := dropna (map by_ frame) in
  if ascending then non_nans else rev non_nans.

(** [a] may come before [b] in the chosen direction. *)
Definition en_orden (ascending : bool) (a b : str) : Prop :=
  (if ascending then str_leb a b else str_leb b a) = true.

(** A key column is in order when its strings come first, each no
    greater (ascending) or no smaller (descending) than those after it,
    and its missing cells come last. *)
Definition ordenado (ascending : bool) (col : list (option str)) : Prop :=
  exists ks k,
    col = map Some ks ++ repeat None k
    /\ StronglySorted (en_orden ascending) ks.




Definition MSG_CONEXION : str := u "Error de conexión con datos.gob.cl: ".
Definition MSG_SUCCESS : str :=
  u "La API respondió pero 'success' es False. Revisa el resource_id.".
Definition MSG_VACIO : str :=
  u "La API no devolvió registros para este recurso.".

(** What [requests.get] answers to the request of the client. *)
Definition respuesta_de (requests_get : str -> list (str * pyval) -> Z -> get_result)
           (resource_id : str) (limit : Z) : get_result :=
  requests_get URL [(u "resource_id", PyStr resource_id);
                    (u "limit", PyInt limit)] 10%Z.

(** The four failures the client provides for, each with the message it
    puts on the page: no answer; an answer whose status is not 200; a
    JSON object whose "success" is absent or false; a JSON object marked
    successful from which no records are read (the field is absent,
    empty, or false in some other way). *)
Inductive fallo_previsto : get_result -> aviso -> Prop :=
| fallo_conexion (e : str) :
    fallo_previsto (RequestException e) (st_error, MSG_CONEXION ++ e)
| fallo_status (r : Response) :
    status_code r <> 200%Z ->
    fallo_previsto
      (Respuesta r)
      (st_error,
       u "Error al obtener datos (status code "
         ++ str_of_Z (status_code r) ++ u ").")
| fallo_success (r : Response) (d : list (str * pyval)) :
    status_code r = 200%Z ->
    json r = Ok (PyDict d) ->
    (forall v, dict_lookup (u "success") d = Some v -> truthy v = false) ->
    fallo_previsto (Respuesta r) (st_warning, MSG_SUCCESS)
| fallo_sin_registros (r : Response) (d : list (str * pyval))
                      (v records : pyval) :
    status_code r = 200%Z ->
    json r = Ok (PyDict d) ->
    dict_lookup (u "success") d = Some v ->
    truthy v = true ->
    get_records (PyDict d) = Ok records ->
    truthy records = false ->
    fallo_previsto (Respuesta r) (st_info, MSG_VACIO).

(** The value read at line 77, when the run gets that far. *)
Definition records_de (out : get_result) : option pyval :=
  match out with
  | Respuesta r =>
      match json r with
      | Ok data =>
          match get_records data with
          | Ok records => Some records
          | Raise _ => None
          end
      | Raise _ => None
      end
  | RequestException _ => None
  end.

Definition records_es_dict (out : get_result) : bool :=
  match records_de out with
  | Some (PyDict _) => true
  | _ => false
  end.

(** Three lines of the region without empty categorical cells; the
    third has no name. *)
Definition csv_tres : list fila_csv :=
  [ linea RM (Some (u "Maipú")) (Some (u "Beta")) (SStr (u "Municipal"))
          (Some (u "Pajaritos")) (SInt (-33));
    linea RM (Some (u "Ñuñoa")) (Some (u "Alpha")) (SStr (u "Privado"))
          (Some (u "Irarrázaval")) (SInt (-33));
    linea RM (Some (u "Maipú")) None (SStr (u "Seremi"))
          (Some (u "Central")) (SInt (-33)) ].

Definition df_tres : list fila := Eval vm_compute in cargar csv_tres.



(** A row passes the four categorical filters: each categorical cell is
    filled in and is one of the selected values. *)
Definition pasa_filtros (sel : seleccion) (f : fila) : Prop :=
  (exists c, ComunaGlosa (csv f) = Some c /\ In c (comunas_sel sel))
  /\ (exists t, TipoEstablecimientoGlosa (csv f) = Some t
                /\ In t (tipos_sel sel))
  /\ In (SistemaSalud f) (sistemas_sel sel)
  /\ (exists n, NivelAtencionEstabglosa (csv f) = Some n
                /\ In n (niveles_sel sel)).

(** A row passes the text filter: the box is empty, or the pattern
    compiles and is found in the name of the row. *)
Definition pasa_nombre (re_search_ci : str -> exc (str -> bool))
           (sel : seleccion) (f : fila) : Prop :=
  nombre_filtro sel = []
  \/ exists busca s,
       re_search_ci (nombre_filtro sel) = Ok busca
       /\ EstablecimientoGlosa (csv f) = Some s
       /\ busca s = true.

(** The untouched widgets, but for the commune list, which holds [c]
    alone. *)
Definition solo_comuna (c : str) (df0 : list fila) : seleccion :=
  let sel := seleccion_inicial df0 in
  {| nombre_filtro := nombre_filtro sel;
     comunas_sel := [c];
     tipos_sel := tipos_sel sel;
     sistemas_sel := sistemas_sel sel;
     niveles_sel := niveles_sel sel;
     orden_campo := orden_campo sel;
     orden_dir := orden_dir sel |}.

(** The untouched widgets on the three sample rows, with the list of
    establishment types emptied. *)
Definition sel_sin_tipos : seleccion :=
  let sel := seleccion_inicial df_tres in
  {| nombre_filtro := nombre_filtro sel;
     comunas_sel := comunas_sel sel;
     tipos_sel := [];
     sistemas_sel := sistemas_sel sel;
     niveles_sel := niveles_sel sel;
     orden_campo := orden_campo sel;
     orden_dir := orden_dir sel |}.

(** The three sector names. *)
Definition SECTORES : list str := [OTRO; PRIVADO; PUBLICO].

(** The test [ComunaGlosa == c] on one row. *)
Definition en_comuna (c : str) (f : fila) : bool :=
  isin (ComunaGlosa (csv f)) [c].

(** Both coordinates of the row are numbers. *)
Definition con_coordenadas (f : fila) : bool :=
  negb (number_isna (Latitud f)) && negb (number_isna (Longitud f)).

(** The keys of a JSON object. *)
Definition claves (v : pyval) : list str :=
  match v with
  | PyDict d => map fst d
  | _ => []
  end.

(** The frame of a list of JSON objects: a row for each, a column for
    each field met. *)
Definition tabla_de_registros (l : list pyval) : DataFrame :=
  let cols := unique (concat (map claves l)) in
  {| index := RangeIndex (length l);
     columns := map Lstr cols;
     values :=
       celdas (length l) (map (fun c => map (lookup_or_nan c) l) cols) |}.

(** The row has no value in the key column. *)
Definition sin_clave (by_ : fila -> option str) (f : fila) : bool :=
  negb (presente (by_ f)).

(** A string made of white space only. *)
Definition en_blanco (s : str) : Prop := Forall (fun c => isspace c = true) s.

(** The answer to the request is a 200 whose body is a JSON object
    marked successful, from which the list [l] is read as the records. *)
Definition responde_registros (out : get_result) (l : list pyval) : Prop :=
  exists r d v,
    out = Respuesta r
    /\ status_code r = 200%Z
    /\ json r = Ok (PyDict d)
    /\ dict_lookup (u "success") d = Some v
    /\ truthy v = true
    /\ get_records (PyDict d) = Ok (PyList l).

Definition es_dict (v : pyval) : bool :=
  match v with
  | PyDict _ => true
  | _ => false
  end.

(** The records are JSON objects and the first one has a field. *)
Definition registros_con_campos (l : list pyval) : Prop :=
  forallb es_dict l = true
  /\ match l with
     | PyDict (_ :: _) :: _ => True
     | _ => False
     end.

(* ================================================================== *)
(** * Properties *)

(** ** Strings *)

Lemma startswith_spec (p s : str) :
  startswith p s = true <-> exists post, s = p ++ post.
Proof.
  revert s; induction p as [|x p IH]; intros s; simpl.
  - split; [intros _; now exists s | reflexivity].
  - destruct s as [|y s]; simpl.
    + split; [discriminate | intros [post H]; discriminate].
    + rewrite andb_true_iff, N.eqb_eq, IH. split.
      * intros [-> [post ->]]. now exists post.
      * intros [post H]. injection H as -> ->. split; [reflexivity | now exists post].
Qed.

Lemma contains_spec (needle hay : str) :
  contains needle hay = true <-> exists pre post, hay = pre ++ needle ++ post.
Proof.
  induction hay as [|c hay IH]; simpl; rewrite orb_true_iff, startswith_spec.
  - split.
    + intros [[post H] | H]; [| discriminate]. exists [], post. exact H.
    + intros [pre [post H]]. left. destruct pre as [|x pre]; [| discriminate].
      now exists post.
  - rewrite IH. split.
    + intros [[post H] | [pre [post H]]].
      * exists [], post. exact H.
      * exists (c :: pre), post. simpl. now rewrite H.
    + intros [[|x pre] [post H]].
      * left. now exists post.
      * right. injection H as _ H. now exists pre, post.
Qed.

Lemma lstrip_head (s : str) :
  match lstrip s with
  | [] => True
  | c :: _ => isspace c = false
  end.
Proof.
  induction s as [|c s IH]; simpl; [exact I |].
  destruct (isspace c) eqn:E; [exact IH | exact E].
Qed.

Lemma lstrip_suffix (s : str) : exists pre, s = pre ++ lstrip s.
Proof.
  induction s as [|c s [pre IH]]; simpl.
  - now exists [].
  - destruct (isspace c).
    + exists (c :: pre). simpl. now rewrite <- IH.
    + now exists [].
Qed.

Lemma strip_extremos_limpios (s : str) : extremos_limpios (strip s).
Proof.
  unfold extremos_limpios, strip, rstrip. split.
  - pose proof (lstrip_head s) as Hh.
    destruct (lstrip_suffix (rev (lstrip s))) as [pre Hpre].
    apply (f_equal (@rev N)) in Hpre.
    rewrite rev_involutive, rev_app_distr in Hpre.
    destruct (rev (lstrip (rev (lstrip s)))) as [|c t] eqn:E; [exact I |].
    rewrite Hpre in Hh. exact Hh.
  - rewrite rev_involutive. apply lstrip_head.
Qed.

Lemma mapM_ok {A B : Type} (f : A -> exc B) (g : A -> B) (l : list A) :
  (forall a, In a l -> f a = Ok (g a)) -> mapM f l = Ok (map g l).
Proof.
  induction l as [|a l IH]; intros H; simpl; [reflexivity |].
  rewrite (H a (or_introl eq_refl)). simpl.
  rewrite IH by (intros b Hb; apply H; now right). reflexivity.
Qed.

Lemma mapM_length {A B : Type} (f : A -> exc B) (l : list A) (r : list B) :
  mapM f l = Ok r -> length r = length l.
Proof.
  revert r; induction l as [|a l IH]; intros r; simpl.
  - intros H; injection H as <-; reflexivity.
  - destruct (f a) as [b|e]; simpl; [| discriminate].
    destruct (mapM f l) as [bs|e]; simpl; [| discriminate].
    intros H; injection H as <-. simpl. now rewrite (IH bs eq_refl).
Qed.

(* ------------------------------------------------------------------ *)
(** ** The sector classifier *)

Lemma sectores_distintos :
  PRIVADO <> PUBLICO /\ PRIVADO <> OTRO /\ PUBLICO <> OTRO.
Proof. repeat split; discriminate. Qed.

Lemma clasificar_sector (lower : str -> str) (dep : pyval) :
  clasificar lower dep = Ok (sector lower dep).
Proof.
  unfold clasificar, sector.
  destruct dep; simpl; try reflexivity.
  destruct (contains (u "privad") (lower s)); [reflexivity |].
  destruct (contains (u "municipal") (lower s) || _ || _); reflexivity.
Qed.

(** C4. Whatever [str.lower] is and whatever the argument is, the
    classifier raises nothing and returns one of the three sector names,
    which are pairwise distinct; an argument that is not a string gets
    "Otro". The result depends on the argument only. *)
Theorem clasificar_total (lower : str -> str) (dep : pyval) :
  exists s,
    clasificar lower dep = Ok s
    /\ (s = PUBLICO \/ s = PRIVADO \/ s = OTRO)
    /\ match dep with
       | PyStr _ => True
       | _ => s = OTRO
       end
    /\ (PRIVADO <> PUBLICO /\ PRIVADO <> OTRO /\ PUBLICO <> OTRO).
Proof.
  exists (sector lower dep). split; [apply clasificar_sector |].
  split; [| split; [| exact sectores_distintos]].
  - unfold sector. destruct dep; auto.
    destruct (contains (u "privad") (lower s)); auto.
    destruct (contains (u "municipal") (lower s) || _ || _); auto.
  - destruct dep; auto.
Qed.

(** C5. A text whose lower-case form contains both the marker "privad"
    and the marker "municipal" is classified "Privado". *)
Theorem clasificar_privado_precede (lower : str -> str) (s : str) :
  contains (u "privad") (lower s) = true ->
  contains (u "municipal") (lower s) = true ->
  clasificar lower (PyStr s) = Ok PRIVADO.
Proof.
  intros Hp _. unfold clasificar. simpl. now rewrite Hp.
Qed.

Lemma clasificar_privado_precede_witness :
  contains (u "privad") (lower_latin (u "Corporación MUNICIPAL - Clínica PRIVADA")) = true
  /\ contains (u "municipal") (lower_latin (u "Corporación MUNICIPAL - Clínica PRIVADA")) = true
  /\ clasificar lower_latin (PyStr (u "Corporación MUNICIPAL - Clínica PRIVADA"))
     = Ok PRIVADO.
Proof.
  split; [reflexivity |]. split; [reflexivity |].
  apply clasificar_privado_precede; reflexivity.
Defined.

Lemma lower_latin_variante (m m' : str) :
  variante m m' -> lower_latin m' = m.
Proof.
  induction 1 as [|a b m m' [Ha Hb] _ IH]; simpl; [reflexivity |].
  rewrite IH. destruct Hb as [-> | [Hr ->]].
  - now rewrite Ha.
  - apply andb_true_iff in Hr. destruct Hr as [H1 H2].
    apply N.leb_le in H1, H2. unfold lower_cp.
    replace ((65 <=? a - 32) && (a - 32 <=? 90))%N with true.
    + simpl. f_equal. lia.
    + symmetry. apply andb_true_iff. split; apply N.leb_le; lia.
Qed.

(** With the instance [lower_latin], a text in which "privad" occurs in
    any mix of upper and lower case is classified "Privado", whatever
    else it contains. *)
Lemma clasificar_privado_mayusculas (m' pre post : str) :
  variante (u "privad") m' ->
  clasificar lower_latin (PyStr (pre ++ m' ++ post)) = Ok PRIVADO.
Proof.
  intros Hv. unfold clasificar. simpl.
  replace (contains (u "privad") (lower_latin (pre ++ m' ++ post))) with true;
    [reflexivity |].
  symmetry. apply contains_spec.
  exists (lower_latin pre), (lower_latin post).
  unfold lower_latin. rewrite !flat_map_app.
  fold (lower_latin m'). now rewrite (lower_latin_variante Hv).
Qed.

(** The public rule does fire when the private marker is absent. *)
Example clasificar_municipal :
  clasificar lower_latin (PyStr (u "Municipal de Maipú")) = Ok PUBLICO.
Proof. reflexivity. Qed.

(* ------------------------------------------------------------------ *)
(** ** The dataset loader *)

Lemma derivar_ok (lower : str -> str) (float_str : spec_float -> str)
      (parse_numeric : str -> option number) (ir : nat * fila_csv) :
  derivar lower float_str parse_numeric ir
  = Ok (fila_derivada lower float_str parse_numeric ir).
Proof.
  unfold derivar. rewrite clasificar_sector. reflexivity.
Qed.

Lemma cargar_datos_ok (lower : str -> str) (float_str : spec_float -> str)
      (parse_numeric : str -> option number) (df0 : list fila_csv) :
  cargar_datos lower float_str parse_numeric df0
  = Ok (map (fila_derivada lower float_str parse_numeric)
            (filter (fun ir => region_metropolitana (snd ir))
                    (combine (seq 0 (length df0)) df0))).
Proof.
  unfold cargar_datos. apply mapM_ok. intros a _. apply derivar_ok.
Qed.

Lemma In_combine_seq {A : Type} (l : list A) (a i : nat) (x : A) :
  In (i, x) (combine (seq a (length l)) l)
  <-> a <= i /\ nth_error l (i - a) = Some x.
Proof.
  revert a; induction l as [|y l IH]; intros a; simpl.
  - split; [tauto |]. intros [_ H]. destruct (i - a); discriminate.
  - rewrite IH. split.
    + intros [H | [H1 H2]].
      * injection H as -> ->. rewrite Nat.sub_diag. split; [lia | reflexivity].
      * split; [lia |]. replace (i - a) with (S (i - S a)) by lia. exact H2.
    + intros [H1 H2]. destruct (Nat.eq_dec i a) as [-> | Hne].
      * rewrite Nat.sub_diag in H2. simpl in H2. injection H2 as ->. now left.
      * right. split; [lia |].
        replace (i - a) with (S (i - S a)) in H2 by lia. exact H2.
Qed.

Lemma combine_seq_sorted {A : Type} (l : list A) (a : nat) :
  StronglySorted (fun x y : nat * A => fst x < fst y)
                 (combine (seq a (length l)) l).
Proof.
  revert a; induction l as [|y l IH]; intros a; simpl; constructor.
  - apply IH.
  - apply Forall_forall. intros [i x] Hin.
    apply In_combine_seq in Hin. simpl. lia.
Qed.

Lemma StronglySorted_filter {A : Type} (R : A -> A -> Prop) (p : A -> bool)
      (l : list A) :
  StronglySorted R l -> StronglySorted R (filter p l).
Proof.
  induction 1 as [|x l Hs IH Hall]; simpl; [constructor |].
  destruct (p x); [| exact IH].
  constructor; [exact IH |].
  rewrite Forall_forall in *. intros y Hy.
  apply filter_In in Hy. apply Hall, Hy.
Qed.

Lemma StronglySorted_map {A B : Type} (R : B -> B -> Prop) (g : A -> B)
      (l : list A) :
  StronglySorted (fun x y => R (g x) (g y)) l -> StronglySorted R (map g l).
Proof.
  induction 1 as [|x l Hs IH Hall]; simpl; constructor; [exact IH |].
  rewrite Forall_forall in *. intros y Hy.
  apply in_map_iff in Hy. destruct Hy as [z [<- Hz]]. now apply Hall.
Qed.

(** Membership in the loaded frame, in terms of the file. *)
Lemma In_cargados (lower : str -> str) (float_str : spec_float -> str)
      (parse_numeric : str -> option number) (df0 : list fila_csv) (f : fila) :
  In f (map (fila_derivada lower float_str parse_numeric)
            (filter (fun ir => region_metropolitana (snd ir))
                    (combine (seq 0 (length df0)) df0)))
  <-> nth_error df0 (idx f) = Some (csv f)
      /\ region_metropolitana (csv f) = true
      /\ f = fila_derivada lower float_str parse_numeric (idx f, csv f).
Proof.
  rewrite in_map_iff. split.
  - intros [[i r] [<- Hin]]. apply filter_In in Hin. destruct Hin as [Hin Hreg].
    apply In_combine_seq in Hin. rewrite Nat.sub_0_r in Hin. simpl in *.
    tauto.
  - intros [Hn [Hreg Hf]]. exists (idx f, csv f). split; [now rewrite <- Hf |].
    apply filter_In. split; [| exact Hreg].
    apply In_combine_seq. rewrite Nat.sub_0_r. split; [lia | exact Hn].
Qed.

(** C6. The loader raises nothing; every row it returns is a line of the
    file, under the label of its position; a line is kept exactly when
    its region cell is a string in which "Metropolitana" occurs as it is
    written; the kept rows stay in the order of the file, without
    repetition. A line of region "Valparaíso" or without region is
    dropped, a line of region "Metropolitana de Santiago" is kept. *)
Theorem cargar_datos_region (lower : str -> str)
        (float_str : spec_float -> str)
        (parse_numeric : str -> option number) (df0 : list fila_csv) :
  exists df_rm,
    cargar_datos lower float_str parse_numeric df0 = Ok df_rm
    /\ (forall f, In f df_rm -> nth_error df0 (idx f) = Some (csv f))
    /\ (forall i r, nth_error df0 i = Some r ->
          ((exists f, In f df_rm /\ idx f = i)
           <-> exists s pre post,
                 RegionGlosa r = Some s
                 /\ s = pre ++ u "Metropolitana" ++ post))
    /\ StronglySorted lt (map idx df_rm)
    /\ (forall i r, nth_error df0 i = Some r ->
          RegionGlosa r = Some (u "Valparaíso") \/ RegionGlosa r = None ->
          ~ exists f, In f df_rm /\ idx f = i)
    /\ (forall i r, nth_error df0 i = Some r ->
          RegionGlosa r = Some (u "Metropolitana de Santiago") ->
          exists f, In f df_rm /\ idx f = i).
Proof.
  eexists. split; [apply cargar_datos_ok |].
  set (D := fila_derivada lower float_str parse_numeric).
  assert (Hkeep : forall i r, nth_error df0 i = Some r ->
            ((exists f, In f (map D (filter (fun ir => region_metropolitana (snd ir))
                                        (combine (seq 0 (length df0)) df0)))
                        /\ idx f = i)
             <-> region_metropolitana r = true)).
  { intros i r Hn. split.
    - intros [f [Hin Hi]]. apply In_cargados in Hin.
      destruct Hin as [Hn' [Hreg _]]. rewrite Hi, Hn in Hn'.
      injection Hn' as ->. exact Hreg.
    - intros Hreg. exists (D (i, r)). split; [| reflexivity].
      apply In_cargados. simpl. auto. }
  split; [| split; [| split; [| split]]].
  - intros f Hin. apply In_cargados in Hin. tauto.
  - intros i r Hn. rewrite (Hkeep i r Hn).
    unfold region_metropolitana, str_contains.
    destruct (RegionGlosa r) as [s|].
    + rewrite contains_spec. split.
      * intros [pre [post H]]. now exists s, pre, post.
      * intros [s' [pre [post [H1 H2]]]]. injection H1 as <-. now exists pre, post.
    + split; [discriminate | intros [s [pre [post [H _]]]]; discriminate].
  - rewrite map_map. simpl. apply StronglySorted_map.
    apply StronglySorted_filter, combine_seq_sorted.
  - intros i r Hn Hreg. rewrite (Hkeep i r Hn).
    unfold region_metropolitana. destruct Hreg as [-> | ->]; discriminate.
  - intros i r Hn Hreg. apply (Hkeep i r Hn).
    unfold region_metropolitana. now rewrite Hreg.
Qed.

(** The containment test distinguishes case. *)
Example region_en_minusculas :
  str_contains (u "Metropolitana") (Some (u "metropolitana de santiago"))
  = false.
Proof. reflexivity. Qed.

(** C7. The loader raises nothing. In every row it returns, each
    coordinate is the coerced value of the cell of the file: the number
    a text denotes, the null of a numeric column when the text denotes
    none. A line of the region is kept whatever its coordinate cells
    are. The map takes, from the rows it is given, those whose two
    coordinates are not null; the table takes them all. *)
Theorem coordenadas_coerce (lower : str -> str)
        (float_str : spec_float -> str)
        (parse_numeric : str -> option number) (df0 : list fila_csv) :
  exists df_rm,
    cargar_datos lower float_str parse_numeric df0 = Ok df_rm
    /\ (forall f, In f df_rm ->
          Latitud f = to_numeric_coerce parse_numeric (Latitud_csv (csv f))
          /\ Longitud f = to_numeric_coerce parse_numeric (Longitud_csv (csv f)))
    /\ (forall s, parse_numeric s = None ->
          number_isna (to_numeric_coerce parse_numeric (SStr s)) = true)
    /\ (forall i r, nth_error df0 i = Some r ->
          region_metropolitana r = true ->
          exists f, In f df_rm /\ idx f = i /\ csv f = r)
    /\ (forall vista f,
          In f (df_mapa vista)
          <-> In f vista
              /\ number_isna (Latitud f) = false
              /\ number_isna (Longitud f) = false)
    /\ (forall vista,
          length (tabla vista) = length vista
          /\ forall f, In f vista -> In (columnas_tabla f) (tabla vista)).
Proof.
  eexists. split; [apply cargar_datos_ok |].
  split; [| split; [| split; [| split]]].
  - intros f Hin. apply In_cargados in Hin. destruct Hin as [_ [_ ->]].
    simpl. split; reflexivity.
  - intros s Hs. simpl. now rewrite Hs.
  - intros i r Hn Hreg.
    exists (fila_derivada lower float_str parse_numeric (i, r)).
    split; [| split; reflexivity]. apply In_cargados. simpl. auto.
  - intros vista f. unfold df_mapa. rewrite filter_In, andb_true_iff.
    rewrite !negb_true_iff. tauto.
  - intros vista. unfold tabla. split; [apply length_map |].
    intros f Hin. now apply in_map.
Qed.

(** The third line of the sample file has the latitude "not-a-number":
    the loader keeps it with a null latitude, the map leaves it out, the
    table shows it. *)
Example latitud_no_numerica :
  parse_entero (u "not-a-number") = None
  /\ map (fun f => (idx f, number_isna (Latitud f))) df_ejemplo
     = [(0, false); (2, true)]
  /\ cargar_datos lower_latin float_decimal parse_entero csv_ejemplo
     = Ok df_ejemplo
  /\ map idx (df_mapa df_ejemplo) = [0]
  /\ length (tabla df_ejemplo) = 2.
Proof. repeat split; reflexivity. Qed.

Lemma lstrip_split (s : str) :
  exists pre, s = pre ++ lstrip s /\ en_blanco pre.
Proof.
  unfold en_blanco. induction s as [|c s [pre [IH Hb]]]; simpl.
  - exists []. split; [reflexivity | constructor].
  - destruct (isspace c) eqn:E.
    + exists (c :: pre). simpl. split; [now rewrite <- IH | now constructor].
    + exists []. split; [reflexivity | constructor].
Qed.

(** [strip] takes white space off the two ends and nothing else. *)
Lemma strip_split (s : str) :
  exists pre post, s = pre ++ strip s ++ post /\ en_blanco pre /\ en_blanco post.
Proof.
  destruct (lstrip_split s) as [pre [Hs Hpre]].
  destruct (lstrip_split (rev (lstrip s))) as [q [Hq Hbq]].
  exists pre, (rev q). split; [| split; [exact Hpre |]].
  - unfold strip, rstrip. rewrite <- rev_app_distr, <- Hq, rev_involutive.
    exact Hs.
  - unfold en_blanco in *. now apply Forall_rev.
Qed.

Lemma lstrip_app (x y : str) :
  ~ en_blanco x -> lstrip (x ++ y) = lstrip x ++ y.
Proof.
  unfold en_blanco. induction x as [|c x IH]; intros H; simpl.
  - exfalso. apply H. constructor.
  - destruct (isspace c) eqn:E; [| reflexivity].
    apply IH. intros Hx. apply H. now constructor.
Qed.

Lemma rstrip_app (x y : str) :
  ~ en_blanco y -> rstrip (x ++ y) = x ++ rstrip y.
Proof.
  intros H. unfold rstrip. rewrite rev_app_distr, lstrip_app.
  - now rewrite rev_app_distr, rev_involutive.
  - intros Hr. apply H. unfold en_blanco in *.
    rewrite <- (rev_involutive y). now apply Forall_rev.
Qed.

(** C8, as the loader has it. The loader raises nothing, and in every
    row it returns the address is what is left of the street type, one
    space, the street name, one space and the number (a null field
    counting as the empty string) once the white space at the two ends
    is taken off, and nothing else: its first and its last character are
    not white space. What is inside is kept: when the street name is
    null or empty while the type and the number each have a character
    that is not white space, the address is the type without its leading
    white space, the two separators, and the number without its trailing
    white space, so it has two spaces in a row. *)
Theorem direccion_recortada (lower : str -> str)
        (float_str : spec_float -> str)
        (parse_numeric : str -> option number) (df0 : list fila_csv) :
  exists df_rm,
    cargar_datos lower float_str parse_numeric df0 = Ok df_rm
    /\ Forall
         (fun f =>
            let tv := fillna_vacio (TipoViaGlosa (csv f)) in
            let nv := fillna_vacio (NombreVia (csv f)) in
            let num := fillna_astype_str float_str (Numero (csv f)) in
            (exists pre post,
               tv ++ u " " ++ nv ++ u " " ++ num
               = pre ++ Direccion f ++ post
               /\ en_blanco pre /\ en_blanco post)
            /\ extremos_limpios (Direccion f)
            /\ (nv = [] -> ~ en_blanco tv -> ~ en_blanco num ->
                Direccion f = lstrip tv ++ u "  " ++ rstrip num
                /\ contains (u "  ") (Direccion f) = true))
         df_rm.
Proof.
  eexists. split; [apply cargar_datos_ok |].
  apply Forall_forall. intros f Hin. apply In_cargados in Hin.
  destruct Hin as [_ [_ ->]]. cbn [Direccion csv fila_derivada snd].
  set (r := csv f).
  cbv zeta. unfold direccion. rewrite <- !app_assoc.
  split; [apply strip_split |]. split; [apply strip_extremos_limpios |].
  intros Hnv Htv Hnum. rewrite Hnv.
  change (u " " ++ [] ++ u " " ++ fillna_astype_str float_str (Numero r))
    with (u "  " ++ fillna_astype_str float_str (Numero r)).
  assert (Heq : strip (fillna_vacio (TipoViaGlosa r)
                       ++ u "  " ++ fillna_astype_str float_str (Numero r))
                = lstrip (fillna_vacio (TipoViaGlosa r)) ++ u "  "
                  ++ rstrip (fillna_astype_str float_str (Numero r))).
  { unfold strip. rewrite (lstrip_app _ Htv).
    rewrite (app_assoc (lstrip _) (u "  ")).
    rewrite (rstrip_app _ Hnum). now rewrite <- app_assoc. }
  rewrite Heq. split; [reflexivity |].
  apply contains_spec. now exists (lstrip (fillna_vacio (TipoViaGlosa r))),
    (rstrip (fillna_astype_str float_str (Numero r))).
Qed.

(** C8, as stated, fails: a line without street name gets an address
    with two spaces in a row. *)
Lemma direccion_espacios_dobles :
  exists f,
    cargar_datos lower_latin float_decimal parse_entero
      [linea RM (Some (u "Maipú")) (Some (u "Alpha")) (SStr (u "Privado"))
             None (SInt (-33))]
    = Ok [f]
    /\ Direccion f = u "Calle  12"
    /\ contains (u "  ") (Direccion f) = true.
Proof.
  eexists. split; [reflexivity |]. split; reflexivity.
Qed.

(* ------------------------------------------------------------------ *)
(** ** Sidebar options *)

Lemma str_eqb_eq (a b : str) : str_eqb a b = true <-> a = b.
Proof.
  unfold str_eqb. destruct (list_eq_dec N.eq_dec a b); split; auto; discriminate.
Qed.

Lemma str_in_In (s : str) (l : list str) : str_in s l = true <-> In s l.
Proof.
  unfold str_in. rewrite existsb_exists. split.
  - intros [x [Hin Heq]]. apply str_eqb_eq in Heq. now subst.
  - intros Hin. exists s. split; [exact Hin | now apply str_eqb_eq].
Qed.

Lemma In_dropna (s : str) (col : list (option str)) :
  In s (dropna col) <-> In (Some s) col.
Proof.
  induction col as [|[x|] col IH]; simpl.
  - tauto.
  - rewrite IH. split; (intros [H | H]; [left; congruence | now right]).
  - rewrite IH. split; [now right | intros [H | H]; [discriminate | exact H]].
Qed.

Lemma In_unique_aux (s : str) (seen l : list str) :
  In s (unique_aux seen l) <-> In s l /\ ~ In s seen.
Proof.
  revert seen; induction l as [|x l IH]; intros seen; simpl.
  - tauto.
  - destruct (str_in x seen) eqn:E.
    + apply str_in_In in E. rewrite IH. split.
      * intros [H1 H2]. auto.
      * intros [[-> | H1] H2]; [contradiction | auto].
    + assert (Hx : ~ In x seen).
      { intros H. apply str_in_In in H. congruence. }
      simpl. rewrite IH. simpl. split.
      * intros [-> | [H1 H2]]; [auto | split; [now right | tauto]].
      * intros [[-> | H1] H2]; [now left |].
        destruct (list_eq_dec N.eq_dec x s) as [-> | Hne]; [now left |].
        right. split; [exact H1 | intros [H | H]; auto].
Qed.

Lemma In_sorted_insert (s x : str) (l : list str) :
  In s (sorted_insert x l) <-> s = x \/ In s l.
Proof.
  induction l as [|y l IH]; simpl.
  - split; [intros [H | []]; auto | intros [H | []]; auto].
  - destruct (str_ltb y x); simpl; [rewrite IH |]; intuition congruence.
Qed.

Lemma In_sorted (s : str) (l : list str) : In s (sorted l) <-> In s l.
Proof.
  induction l as [|x l IH]; simpl; [tauto |].
  rewrite In_sorted_insert, IH. intuition congruence.
Qed.

(** An option list holds exactly the strings present in the column. *)
Lemma In_opciones (s : str) (col : list (option str)) :
  In s (opciones col) <-> In (Some s) col.
Proof.
  unfold opciones, unique. rewrite In_sorted, In_unique_aux, In_dropna.
  simpl. tauto.
Qed.

Lemma isin_opciones {A : Type} (g : A -> option str) (l : list A) (a : A) :
  In a l ->
  isin (g a) (opciones (map g l))
  = match g a with Some _ => true | None => false end.
Proof.
  intros Hin. unfold isin. destruct (g a) as [s|] eqn:E; [| reflexivity].
  apply str_in_In, In_opciones. rewrite <- E. now apply in_map.
Qed.

(* ------------------------------------------------------------------ *)
(** ** The filter *)

(** With the widgets untouched, the filter keeps the rows in which the
    three categorical cells of the file are filled in, and only those. *)
Lemma filtrar_inicial (re_search_ci : str -> exc (str -> bool))
      (df0 : list fila) :
  filtrar re_search_ci df0 (seleccion_inicial df0)
  = Ok (filter sin_nulos df0).
Proof.
  unfold filtrar. simpl. f_equal. apply filter_ext_in. intros f Hin.
  unfold cumple_filtros, sin_nulos, seleccion_inicial; simpl.
  unfold comunas, tipos, sistemas, niveles.
  rewrite (isin_opciones (fun f => ComunaGlosa (csv f)) df0 f Hin).
  rewrite (isin_opciones (fun f => TipoEstablecimientoGlosa (csv f)) df0 f Hin).
  rewrite (isin_opciones (fun f => NivelAtencionEstabglosa (csv f)) df0 f Hin).
  pose proof (isin_opciones (fun f => Some (SistemaSalud f)) df0 f Hin) as Hs.
  simpl in Hs. rewrite Hs. unfold presente.
  destruct (ComunaGlosa (csv f)), (TipoEstablecimientoGlosa (csv f)),
    (NivelAtencionEstabglosa (csv f)); reflexivity.
Qed.

(** On a dataset without empty categorical cells the untouched filter
    keeps every row. *)
Lemma filtrar_inicial_completo (re_search_ci : str -> exc (str -> bool))
      (df0 : list fila) :
  forallb sin_nulos df0 = true ->
  filtrar re_search_ci df0 (seleccion_inicial df0) = Ok df0.
Proof.
  intros H. rewrite filtrar_inicial. f_equal.
  induction df0 as [|f l IH]; simpl in *; [reflexivity |].
  apply andb_true_iff in H. destruct H as [H1 H2].
  rewrite H1. f_equal. now apply IH.
Qed.

(** C2 on the sample file. The loaded frame has two rows; the second has
    no commune. With the widgets untouched the block returns the first
    row only. *)
Theorem filtro_inicial_pierde_filas :
  cargar_datos lower_latin float_decimal parse_entero csv_ejemplo
  = Ok df_ejemplo
  /\ map (fun f => (idx f, ComunaGlosa (csv f))) df_ejemplo
     = [(0, Some (u "Maipú")); (2, None)]
  /\ exists out,
       filtrar_ordenar re_literal Numpy.argsort df_ejemplo
                       (seleccion_inicial df_ejemplo) = Ok out
       /\ map idx out = [0].
Proof.
  split; [reflexivity |]. split; [reflexivity |].
  eexists. split; reflexivity.
Qed.

(* ------------------------------------------------------------------ *)
(** ** Sorting *)

Lemma take_Forall2 {A : Type} (l : list A) (p : list nat) :
  (forall i, In i p -> i < length l) ->
  exists out,
    take l p = Ok out
    /\ Forall2 (fun i x => nth_error l i = Some x) p out.
Proof.
  induction p as [|i p IH]; intros H; simpl.
  - exists []. split; [reflexivity | constructor].
  - destruct IH as [out [Ht Hf]]; [intros j Hj; apply H; now right |].
    destruct (nth_error l i) as [x|] eqn:E.
    + exists (x :: out). rewrite Ht. simpl. split; [reflexivity |].
      constructor; assumption.
    + exfalso. apply nth_error_None in E.
      specialize (H i (or_introl eq_refl)). lia.
Qed.

Lemma Forall2_functional {A B : Type} (G : A -> B -> Prop) (p : list A) (a b : list B) :
  (forall i x y, G i x -> G i y -> x = y) ->
  Forall2 G p a -> Forall2 G p b -> a = b.
Proof.
  intros Hfun Ha. revert b.
  induction Ha as [|i x p a Hix Ha IH]; intros b Hb; inversion Hb; subst.
  - reflexivity.
  - f_equal; [eapply Hfun; eassumption | now apply IH].
Qed.

Lemma Forall2_seq_nth_error {A : Type} (l1 l2 : list A) :
  Forall2 (fun i x => nth_error (l1 ++ l2) i = Some x)
          (seq (length l1) (length l2)) l2.
Proof.
  revert l1; induction l2 as [|x l2 IH]; intros l1; simpl; constructor.
  - rewrite nth_error_app2 by lia. now rewrite Nat.sub_diag.
  - specialize (IH (l1 ++ [x])).
    rewrite <- app_assoc, length_app in IH. simpl in IH.
    now rewrite Nat.add_1_r in IH.
Qed.

Lemma take_perm {A : Type} (l : list A) (p : list nat) (out : list A) :
  Forall2 (fun i x => nth_error l i = Some x) p out ->
  Permutation p (seq 0 (length l)) ->
  Permutation l out.
Proof.
  intros Hf Hp.
  destruct (Permutation_Forall2 Hp Hf) as [out' [Hperm Hf']].
  assert (out' = l) as ->.
  { eapply Forall2_functional; [| exact Hf' | exact (Forall2_seq_nth_error [] l)].
    intros i x y Hx Hy. simpl in Hy. congruence. }
  now apply Permutation_sym.
Qed.

Lemma Forall2_rev {A B : Type} (R : A -> B -> Prop) (a : list A) (b : list B) :
  Forall2 R a b -> Forall2 R (rev a) (rev b).
Proof.
  induction 1; simpl; [constructor |].
  apply Forall2_app; [assumption | now constructor].
Qed.

Lemma Forall2_nth_error {A B : Type} (R : A -> B -> Prop) (a : list A) (b : list B)
      (j : nat) (x : A) (y : B) :
  Forall2 R a b ->
  nth_error a j = Some x -> nth_error b j = Some y -> R x y.
Proof.
  intros H. revert j. induction H; intros [|j]; simpl; try discriminate.
  - intros Hx Hy. injection Hx as <-. injection Hy as <-. assumption.
  - apply IHForall2.
Qed.

(** Picking the same positions in two aligned arrays gives two
    aligned arrays. *)
Lemma Forall2_pick {A B : Type} (R : A -> B -> Prop) (a : list A) (b : list B)
      (p : list nat) (pa : list A) (pb : list B) :
  Forall2 R a b ->
  Forall2 (fun j x => nth_error a j = Some x) p pa ->
  Forall2 (fun j y => nth_error b j = Some y) p pb ->
  Forall2 R pa pb.
Proof.
  intros Hab Hpa. revert pb.
  induction Hpa as [|j x p pa Hj Hpa IH]; intros pb Hpb; inversion Hpb; subst.
  - constructor.
  - constructor; [eapply Forall2_nth_error; eassumption | now apply IH].
Qed.

Lemma Forall2_map_r {A B C : Type} (R : A -> C -> Prop) (g : B -> C) (p : list A)
      (l : list B) :
  Forall2 (fun i x => R i (g x)) p l -> Forall2 R p (map g l).
Proof. induction 1; simpl; constructor; assumption. Qed.

Lemma StronglySorted_app {A : Type} (R : A -> A -> Prop) (l1 l2 : list A) :
  StronglySorted R l1 -> StronglySorted R l2 ->
  (forall a b, In a l1 -> In b l2 -> R a b) ->
  StronglySorted R (l1 ++ l2).
Proof.
  induction 1 as [|x l1 Hs IH Hall]; intros H2 Hc; simpl; [assumption |].
  constructor.
  - apply IH; [assumption | intros a b Ha Hb; apply Hc; [now right | assumption]].
  - apply Forall_app. split; [assumption |].
    apply Forall_forall. intros b Hb. apply Hc; [now left | assumption].
Qed.

Lemma StronglySorted_rev {A : Type} (R : A -> A -> Prop) (l : list A) :
  StronglySorted R l -> StronglySorted (fun a b => R b a) (rev l).
Proof.
  induction 1 as [|x l Hs IH Hall]; simpl; [constructor |].
  apply StronglySorted_app; [assumption | repeat constructor |].
  intros a b Ha [<- | []]. rewrite Forall_forall in Hall.
  apply Hall. now apply in_rev.
Qed.

(** The two position arrays of [nargsort] against the column they are
    cut from: aligned with the strings, pointing at missing cells, and
    between them every position once. *)
Lemma positions_spec (items : list (option str)) (s : nat) :
  Forall2 (fun i k => s <= i /\ nth_error items (i - s) = Some (Some k))
          (non_nan_positions s items) (dropna items)
  /\ Forall (fun i => s <= i /\ nth_error items (i - s) = Some None)
            (nan_positions s items)
  /\ Permutation (non_nan_positions s items ++ nan_positions s items)
                 (seq s (length items)).
Proof.
  revert s; induction items as [|c items IH]; intros s; simpl.
  - repeat split; constructor.
  - destruct (IH (S s)) as [H1 [H2 H3]].
    assert (Hshift : forall i (x : option str),
               S s <= i /\ nth_error items (i - S s) = Some x ->
               s <= i /\ nth_error (c :: items) (i - s) = Some x).
    { intros i x [Hle Hn]. split; [lia |].
      replace (i - s) with (S (i - S s)) by lia. exact Hn. }
    assert (H1' : Forall2 (fun i k => s <= i
                             /\ nth_error (c :: items) (i - s) = Some (Some k))
                          (non_nan_positions (S s) items) (dropna items)).
    { eapply Forall2_impl; [| exact H1]. intros i k. apply Hshift. }
    assert (H2' : Forall (fun i => s <= i
                            /\ nth_error (c :: items) (i - s) = Some None)
                         (nan_positions (S s) items)).
    { eapply Forall_impl; [| exact H2]. intros i. apply Hshift. }
    destruct c as [k|].
    + split; [| split].
      * constructor; [| exact H1'].
        split; [lia | now rewrite Nat.sub_diag].
      * exact H2'.
      * simpl. now apply perm_skip.
    + split; [| split].
      * exact H1'.
      * constructor; [| exact H2'].
        split; [lia | now rewrite Nat.sub_diag].
      * apply Permutation_sym, Permutation_cons_app, Permutation_sym, H3.
Qed.

Lemma Forall2_map_self {A B : Type} (R : A -> B -> Prop) (g : A -> B)
      (p : list A) :
  (forall j, In j p -> R j (g j)) -> Forall2 R p (map g p).
Proof.
  induction p as [|j p IH]; intros H; simpl; constructor.
  - apply H. now left.
  - apply IH. intros k Hk. apply H. now right.
Qed.

Lemma nargsort_spec (argsort : list str -> list nat)
      (items : list (option str)) (ascending : bool) :
  let K := if ascending then dropna items else rev (dropna items) in
  es_argsort K (argsort K) ->
  exists indexer keys,
    nargsort argsort items ascending = Ok (indexer ++ nan_positions 0 items)
    /\ Permutation (indexer ++ nan_positions 0 items) (seq 0 (length items))
    /\ Forall2 (fun i k => nth_error items i = Some (Some k)) indexer keys
    /\ StronglySorted (en_orden ascending) keys.
Proof.
  intros K [Hperm Hsorted].
  destruct (positions_spec items 0) as [H1 [_ H3]].
  assert (H1' : Forall2 (fun i k => nth_error items i = Some (Some k))
                        (non_nan_positions 0 items) (dropna items)).
  { eapply Forall2_impl; [| exact H1]. intros i k [_ H].
    now rewrite Nat.sub_0_r in H. }
  set (A := if ascending then non_nan_positions 0 items
            else rev (non_nan_positions 0 items)).
  assert (HAK : Forall2 (fun i k => nth_error items i = Some (Some k)) A K).
  { unfold A, K. destruct ascending; [exact H1' | now apply Forall2_rev]. }
  assert (HA : Permutation A (non_nan_positions 0 items)).
  { unfold A. destruct ascending; [reflexivity |].
    apply Permutation_sym, Permutation_rev. }
  pose proof (Forall2_length HAK) as Hlen.
  assert (Hrange : forall i, In i (argsort K) -> i < length A).
  { intros i Hi. apply (Permutation_in _ Hperm) in Hi.
    apply in_seq in Hi. lia. }
  destruct (take_Forall2 A (argsort K) Hrange) as [indexer0 [Ht Hf0]].
  set (keys0 := map (fun j => nth j K []) (argsort K)).
  assert (HfK : Forall2 (fun j k => nth_error K j = Some k) (argsort K) keys0).
  { apply Forall2_map_self. intros j Hj. apply nth_error_nth'.
    rewrite <- Hlen. now apply Hrange. }
  pose proof (Forall2_pick HAK Hf0 HfK) as Hal.
  assert (Hp0 : Permutation A indexer0).
  { apply take_perm with (p := argsort K); [exact Hf0 | now rewrite Hlen]. }
  assert (Hs0 : StronglySorted (fun a b => str_leb a b = true) keys0).
  { unfold keys0. apply StronglySorted_map. exact Hsorted. }
  assert (Hrun : nargsort argsort items ascending
                 = Ok ((if ascending then indexer0 else rev indexer0)
                         ++ nan_positions 0 items)).
  { unfold nargsort. fold K. fold A. rewrite Ht. reflexivity. }
  exists (if ascending then indexer0 else rev indexer0),
         (if ascending then keys0 else rev keys0).
  split; [exact Hrun |]. split; [| split].
  - rewrite <- H3. apply Permutation_app_tail.
    rewrite <- HA, Hp0. destruct ascending; [reflexivity |].
    apply Permutation_sym, Permutation_rev.
  - destruct ascending; [exact Hal | now apply Forall2_rev].
  - destruct ascending; [exact Hs0 |].
    apply (StronglySorted_rev Hs0).
Qed.

Lemma Forall2_app_repeat {A B : Type} (G : A -> option B -> Prop)
      (p q : list A) (ks : list B) :
  Forall2 (fun i k => G i (Some k)) p ks ->
  Forall (fun i => G i None) q ->
  Forall2 G (p ++ q) (map Some ks ++ repeat None (length q)).
Proof.
  intros Hp Hq. apply Forall2_app.
  - induction Hp; simpl; constructor; assumption.
  - induction Hq; simpl; constructor; assumption.
Qed.

Lemma sort_values_spec (argsort : list str -> list nat)
      (by_ : fila -> option str) (ascending : bool) (frame : list fila) :
  es_argsort (claves_argsort by_ ascending frame)
             (argsort (claves_argsort by_ ascending frame)) ->
  exists out,
    sort_values argsort by_ ascending frame = Ok out
    /\ Permutation frame out
    /\ ordenado ascending (map by_ out).
Proof.
  intros Harg.
  destruct (nargsort_spec argsort (map by_ frame) ascending Harg)
    as [indexer [keys [Hrun [Hperm [Hal Hs]]]]].
  rewrite length_map in Hperm.
  assert (Hrange : forall i, In i (indexer ++ nan_positions 0 (map by_ frame)) ->
                             i < length frame).
  { intros i Hi. apply (Permutation_in _ Hperm) in Hi.
    apply in_seq in Hi. lia. }
  destruct (take_Forall2 frame _ Hrange) as [out [Ht Hf]].
  exists out. split; [| split].
  - unfold sort_values. rewrite Hrun. exact Ht.
  - eapply take_perm; [exact Hf | exact Hperm].
  - exists keys, (length (nan_positions 0 (map by_ frame))).
    split; [| exact Hs].
    apply (@Forall2_functional _ _
             (fun i c => nth_error (map by_ frame) i = Some c)
             (indexer ++ nan_positions 0 (map by_ frame))).
    + intros i x y Hx Hy. congruence.
    + apply Forall2_map_r. eapply Forall2_impl; [| exact Hf].
      intros i x Hx. now apply map_nth_error.
    + apply Forall2_app_repeat; [exact Hal |].
      destruct (positions_spec (map by_ frame) 0) as [_ [H2 _]].
      eapply Forall_impl; [| exact H2]. intros i [_ H].
      now rewrite Nat.sub_0_r in H.
Qed.

Lemma take_nth_error {A : Type} (l : list A) (p : list nat) (out : list A) :
  take l p = Ok out ->
  Forall2 (fun i x => nth_error l i = Some x) p out.
Proof.
  revert out; induction p as [|i p IH]; intros out; simpl.
  - intros H; injection H as <-. constructor.
  - destruct (nth_error l i) as [y|] eqn:E; [| discriminate].
    destruct (take l p) as [ys|e]; simpl; [| discriminate].
    intros H; injection H as <-. constructor; [exact E | now apply IH].
Qed.












(** On the three sample rows sorted by name: "Alpha", "Beta", then the
    row without name; in the other direction "Beta", "Alpha", and the
    row without name still last. *)
Example orden_por_nombre :
  let sel := seleccion_inicial df_tres in
  let desc := {| nombre_filtro := []; comunas_sel := comunas_sel sel;
                 tipos_sel := tipos_sel sel; sistemas_sel := sistemas_sel sel;
                 niveles_sel := niveles_sel sel; orden_campo := u "Nombre";
                 orden_dir := u "Z → A" |} in
  (exists out, filtrar_ordenar re_literal Numpy.argsort df_tres sel = Ok out
               /\ map idx out = [1; 0; 2])
  /\ (exists out, filtrar_ordenar re_literal Numpy.argsort df_tres desc = Ok out
                  /\ map idx out = [0; 1; 2]).
Proof. split; eexists; split; reflexivity. Qed.


(* ------------------------------------------------------------------ *)
(** ** The remote query client *)

(** C1, as the client has it. In each of the four failures it provides
    for, the client puts one message on the page, of the level of the
    failure, and returns [None] without raising; in particular a status
    other than 200 gives an error message that quotes the status. *)
Theorem consultar_fallos_previstos
        (requests_get : str -> list (str * pyval) -> Z -> get_result)
        (resource_id : str) (limit : Z) (a : aviso) :
  fallo_previsto (respuesta_de requests_get resource_id limit) a ->
  consultar_api_datos_gob requests_get resource_id limit = ([a], Ok None).
Proof.
  unfold consultar_api_datos_gob, respuesta_de. cbv zeta.
  match goal with
  | |- context [requests_get ?x ?y ?z] => generalize (requests_get x y z)
  end.
  intros out H.
  destruct H as [e | r Hs | r d Hs Hj Hv | r d v records Hs Hj Hv Ht Hr Hf];
    unfold MSG_CONEXION, MSG_SUCCESS, MSG_VACIO.
  - unfold st_write, ui_ret, ui_bind. reflexivity.
  - apply Z.eqb_neq in Hs. rewrite Hs.
    unfold st_write, ui_ret, ui_bind, negb. reflexivity.
  - apply Z.eqb_eq in Hs. rewrite Hs, Hj.
    unfold ui_lift, py_get, negb at 1. unfold ui_bind at 1.
    destruct (dict_lookup (u "success") d) as [v|] eqn:E;
      unfold ui_bind at 1.
    + rewrite (Hv v eq_refl). unfold st_write, ui_ret, ui_bind, negb.
      reflexivity.
    + unfold truthy, st_write, ui_ret, ui_bind, negb. reflexivity.
  - apply Z.eqb_eq in Hs. rewrite Hs, Hj.
    unfold ui_lift, negb at 1. unfold ui_bind at 1. unfold py_get at 1.
    rewrite Hv. unfold ui_bind at 1. rewrite Ht, Hr.
    unfold negb at 1. unfold ui_bind at 1. rewrite Hf.
    unfold st_write, ui_ret, ui_bind, negb. reflexivity.
Qed.

Lemma consultar_fallos_previstos_witness :
  let r := {| status_code := 404; json := Raise JSONDecodeError |} in
  fallo_previsto (respuesta_de (responde r) (u "abc") 30)
                 (st_error, u "Error al obtener datos (status code 404).")
  /\ consultar_api_datos_gob (responde r) (u "abc") 30
     = ([(st_error, u "Error al obtener datos (status code 404).")], Ok None).
Proof.
  assert (H : fallo_previsto
                (respuesta_de
                   (responde {| status_code := 404; json := Raise JSONDecodeError |})
                   (u "abc") 30)
                (st_error, u "Error al obtener datos (status code 404).")).
  { apply (fallo_status {| status_code := 404; json := Raise JSONDecodeError |}).
    simpl. discriminate. }
  split; [exact H |].
  exact (consultar_fallos_previstos (responde _) (u "abc") 30 H).
Defined.

(** The three other failures on sample responses. *)
Example consultar_otros_fallos :
  consultar_api_datos_gob (fun _ _ _ => RequestException (u "timeout")) (u "abc") 30
  = ([(st_error, MSG_CONEXION ++ u "timeout")], Ok None)
  /\ consultar_api_datos_gob
       (responde {| status_code := 200;
                    json := Ok (PyDict [(u "success", PyBool false)]) |})
       (u "abc") 30
     = ([(st_warning, MSG_SUCCESS)], Ok None)
  /\ consultar_api_datos_gob
       (responde {| status_code := 200; json := Ok (cuerpo (PyList [])) |})
       (u "abc") 30
     = ([(st_info, MSG_VACIO)], Ok None).
Proof. split; [| split]; vm_compute; reflexivity. Qed.

(** C1, as stated, fails on a malformed body: when the body of a 200
    answer is not JSON, [r.json()] raises and the exception leaves the
    client, with no message written; the same happens, with an
    [AttributeError], when the body is a JSON array. *)
Lemma consultar_cuerpo_malformado :
  consultar_api_datos_gob
    (responde {| status_code := 200; json := Raise JSONDecodeError |})
    (u "abc") 30
  = ([], Raise JSONDecodeError)
  /\ consultar_api_datos_gob
       (responde {| status_code := 200; json := Ok (PyList []) |})
       (u "abc") 30
     = ([], Raise AttributeError).
Proof. split; vm_compute; reflexivity. Qed.

Lemma RangeIndex_length (n : nat) : length (RangeIndex n) = n.
Proof. unfold RangeIndex. now rewrite length_map, length_seq. Qed.

(** A frame built from a list has one row per element. *)
Lemma celdas_length (n : nat) (cols : list (list pyval)) :
  length (celdas n cols) = n.
Proof. unfold celdas. now rewrite length_map, length_seq. Qed.

Lemma pd_DataFrame_list (l : list pyval) (t : DataFrame) :
  pd_DataFrame (PyList l) = Ok t ->
  len t = length l /\ length (values t) = length l.
Proof.
  unfold len. destruct l as [|x l]; [intros H; injection H as <-; now split |].
  destruct x; cbn [pd_DataFrame];
    try (intros H; injection H as <-; cbn [index values];
         rewrite RangeIndex_length, celdas_length; now split).
  - unfold frame_of_lists.
    destruct (mapM row_items (PyList l0 :: l)) as [rows|e]; cbn [bind];
      [| discriminate].
    intros H; injection H as <-. cbn [index values].
    rewrite RangeIndex_length, celdas_length. now split.
  - unfold frame_of_dicts.
    destruct (mapM keys_of (PyDict d :: l)) as [ks|e]; cbn [bind];
      [| discriminate].
    intros H; injection H as <-. cbn [index values].
    rewrite RangeIndex_length, celdas_length. now split.
Qed.

(** C10, as the client has it. When the value read as the records is
    not a JSON object, what the client returns, if it returns, is [None]
    or a frame with one row for each element of the list of records,
    which has at least one element. *)
Theorem consultar_tabla_con_filas
        (requests_get : str -> list (str * pyval) -> Z -> get_result)
        (resource_id : str) (limit : Z) (v : option DataFrame) :
  records_es_dict (respuesta_de requests_get resource_id limit) = false ->
  snd (consultar_api_datos_gob requests_get resource_id limit) = Ok v ->
  v = None
  \/ exists t l,
       v = Some t
       /\ records_de (respuesta_de requests_get resource_id limit)
          = Some (PyList l)
       /\ len t = length l
       /\ length (values t) = length l
       /\ 1 <= length l.
Proof.
  unfold consultar_api_datos_gob, records_es_dict, records_de, respuesta_de.
  cbv zeta.
  destruct (requests_get _ _ _) as [r | e]; simpl.
  2:{ intros _ H. injection H as <-. now left. }
  destruct (status_code r =? 200)%Z; simpl.
  2:{ intros _ H. injection H as <-. now left. }
  destruct (json r) as [data | e]; simpl; [| discriminate].
  destruct (py_get data (u "success") (PyBool false)) as [success | e];
    simpl; [| discriminate].
  destruct (truthy success); simpl.
  2:{ intros _ H. injection H as <-. now left. }
  destruct (get_records data) as [records | e]; simpl; [| discriminate].
  destruct (truthy records) eqn:Ht; simpl.
  2:{ intros _ H. injection H as <-. now left. }
  intros Hd.
  destruct (pd_DataFrame records) as [t | e] eqn:Ep; simpl; [| discriminate].
  intros H. injection H as <-. right.
  destruct records as [| b | z | f | s | l | d]; try discriminate.
  exists t, l. destruct (pd_DataFrame_list _ Ep) as [H1 H2].
  repeat split; try assumption.
  destruct l; [discriminate | simpl; lia].
Qed.

Lemma consultar_tabla_con_filas_witness :
  let registros :=
    PyList [PyDict [(u "_id", PyInt 1); (u "nombre", PyStr (u "Hospital"))];
            PyDict [(u "_id", PyInt 2); (u "comuna", PyStr (u "Maipú"))]] in
  let red := responde {| status_code := 200; json := Ok (cuerpo registros) |} in
  exists t,
    consultar_api_datos_gob red (u "abc") 30 = ([], Ok (Some t))
    /\ (Some t = None
        \/ exists t' l,
             Some t = Some t'
             /\ records_de (respuesta_de red (u "abc") 30) = Some (PyList l)
             /\ len t' = length l
             /\ length (values t') = length l
             /\ 1 <= length l).
Proof.
  eexists. split; [vm_compute; reflexivity |].
  apply (@consultar_tabla_con_filas
           (responde {| status_code := 200;
                        json := Ok (cuerpo (PyList
                          [PyDict [(u "_id", PyInt 1);
                                   (u "nombre", PyStr (u "Hospital"))];
                           PyDict [(u "_id", PyInt 2);
                                   (u "comuna", PyStr (u "Maipú"))]])) |})
           (u "abc") 30); vm_compute; reflexivity.
Defined.

(** C10, as stated, fails: when the records arrive as a JSON object of
    empty columns, the test for emptiness lets them through and the
    client returns a frame without rows. *)
Lemma consultar_tabla_vacia :
  exists t,
    consultar_api_datos_gob
      (responde {| status_code := 200;
                   json := Ok (cuerpo (PyDict [(u "nombre", PyList [])])) |})
      (u "abc") 30
    = ([], Ok (Some t))
    /\ len t = 0
    /\ values t = [].
Proof.
  eexists. split; [vm_compute; reflexivity |]. split; reflexivity.
Qed.

(* ------------------------------------------------------------------ *)
(** ** The order of strings and the option lists *)

Lemma str_ltb_irrefl (a : str) : str_ltb a a = false.
Proof.
  induction a as [|x a IH]; simpl; [reflexivity |].
  now rewrite N.ltb_irrefl.
Qed.

Lemma str_ltb_trans (a b c : str) :
  str_ltb a b = true -> str_ltb b c = true -> str_ltb a c = true.
Proof.
  revert b c; induction a as [|x a IH]; intros [|y b] [|z c]; simpl;
    try discriminate; try reflexivity.
  destruct (N.ltb_spec x y), (N.ltb_spec y x), (N.ltb_spec y z),
    (N.ltb_spec z y), (N.ltb_spec x z), (N.ltb_spec z x);
    try discriminate; try reflexivity; try lia.
  apply IH.
Qed.

Lemma str_ltb_total (a b : str) :
  str_ltb a b = false -> str_ltb b a = false -> a = b.
Proof.
  revert b; induction a as [|x a IH]; intros [|y b]; simpl;
    try discriminate; try reflexivity.
  destruct (N.ltb_spec x y), (N.ltb_spec y x); try discriminate; try lia.
  intros H1 H2. f_equal; [lia | now apply IH].
Qed.

Lemma str_leb_trans (a b c : str) :
  str_leb a b = true -> str_leb b c = true -> str_leb a c = true.
Proof.
  unfold str_leb. rewrite !negb_true_iff. intros Hba Hcb.
  destruct (str_ltb c a) eqn:Hca; [| reflexivity].
  destruct (str_ltb a b) eqn:Hab.
  - now rewrite (str_ltb_trans _ _ _ Hca Hab) in Hcb.
  - rewrite (str_ltb_total _ _ Hab Hba) in Hca. congruence.
Qed.

Lemma sorted_insert_sorted (x : str) (l : list str) :
  StronglySorted (fun a b => str_leb a b = true) l ->
  StronglySorted (fun a b => str_leb a b = true) (sorted_insert x l).
Proof.
  induction 1 as [|y l Hs IH Hall]; simpl; [repeat constructor |].
  destruct (str_ltb y x) eqn:E.
  - constructor; [exact IH |].
    apply Forall_forall. intros z Hz. apply In_sorted_insert in Hz.
    destruct Hz as [-> | Hz].
    + unfold str_leb. apply negb_true_iff.
      destruct (str_ltb x y) eqn:E'; [| reflexivity].
      pose proof (str_ltb_trans _ _ _ E E') as H.
      now rewrite str_ltb_irrefl in H.
    + rewrite Forall_forall in Hall. now apply Hall.
  - assert (Hxy : str_leb x y = true) by (unfold str_leb; now rewrite E).
    constructor; [now constructor |].
    constructor; [exact Hxy |].
    rewrite Forall_forall in *. intros z Hz.
    apply (str_leb_trans _ _ _ Hxy). now apply Hall.
Qed.

Lemma sorted_sorted (l : list str) :
  StronglySorted (fun a b => str_leb a b = true) (sorted l).
Proof.
  induction l as [|x l IH]; simpl; [constructor |].
  now apply sorted_insert_sorted.
Qed.

Lemma sorted_insert_perm (x : str) (l : list str) :
  Permutation (x :: l) (sorted_insert x l).
Proof.
  induction l as [|y l IH]; simpl; [reflexivity |].
  destruct (str_ltb y x); [| reflexivity].
  rewrite perm_swap. now apply perm_skip.
Qed.

Lemma sorted_perm (l : list str) : Permutation l (sorted l).
Proof.
  induction l as [|x l IH]; simpl; [reflexivity |].
  rewrite <- sorted_insert_perm. now apply perm_skip.
Qed.

Lemma unique_aux_NoDup (seen l : list str) : NoDup (unique_aux seen l).
Proof.
  revert seen; induction l as [|x l IH]; intros seen; simpl; [constructor |].
  destruct (str_in x seen); [apply IH |].
  constructor; [| apply IH].
  intros H. apply In_unique_aux in H. destruct H as [_ H]. apply H. now left.
Qed.

(** X1. An option list of the sidebar holds exactly the strings present
    in its column, missing cells left out, each once, in strictly
    ascending order of code points. *)
Theorem opciones_ordenadas (col : list (option str)) :
  (forall s, In s (opciones col) <-> In (Some s) col)
  /\ NoDup (opciones col)
  /\ StronglySorted (fun a b => str_ltb a b = true) (opciones col).
Proof.
  assert (Hnd : NoDup (opciones col)).
  { unfold opciones. eapply Permutation_NoDup; [apply sorted_perm |].
    apply unique_aux_NoDup. }
  split; [intros s; apply In_opciones |]. split; [exact Hnd |].
  pose proof (sorted_sorted (unique (dropna col))) as Hs.
  fold (opciones col) in Hs.
  induction Hs as [|x l Hs IH Hall]; constructor.
  - apply IH. now inversion Hnd.
  - inversion Hnd as [|? ? Hx Hl]; subst.
    rewrite Forall_forall in *. intros y Hy.
    specialize (Hall y Hy). unfold str_leb in Hall.
    apply negb_true_iff in Hall.
    destruct (str_ltb x y) eqn:E; [reflexivity |].
    exfalso. apply Hx. now rewrite (str_ltb_total _ _ E Hall).
Qed.

(* ------------------------------------------------------------------ *)
(** ** White space *)

Lemma lstrip_nil (s : str) : lstrip s = [] <-> en_blanco s.
Proof.
  unfold en_blanco. induction s as [|c s IH]; simpl.
  - split; [constructor | reflexivity].
  - destruct (isspace c) eqn:E.
    + rewrite IH. split; [now constructor | now inversion 1].
    + split; [discriminate | inversion 1; congruence].
Qed.

Lemma strip_nil (s : str) : strip s = [] <-> en_blanco s.
Proof.
  unfold strip, rstrip. split.
  - intros H. apply (f_equal (@rev N)) in H.
    rewrite rev_involutive in H. simpl in H.
    apply lstrip_nil in H. unfold en_blanco in H.
    apply lstrip_nil.
    destruct (lstrip s) as [|c t] eqn:E; [reflexivity |].
    pose proof (lstrip_head s) as Hh. rewrite E in Hh.
    rewrite Forall_forall in H.
    rewrite (H c) in Hh; [discriminate |].
    apply -> in_rev. now left.
  - intros H. apply lstrip_nil in H. now rewrite H.
Qed.

(** X2. The address of a line is the empty string exactly when its
    street type, its street name and its number hold nothing but white
    space, a missing cell holding nothing. *)
Theorem direccion_vacia (float_str : spec_float -> str) (r : fila_csv) :
  direccion float_str r = []
  <-> en_blanco (fillna_vacio (TipoViaGlosa r))
      /\ en_blanco (fillna_vacio (NombreVia r))
      /\ en_blanco (fillna_astype_str float_str (Numero r)).
Proof.
  unfold direccion. rewrite strip_nil. unfold en_blanco.
  rewrite !Forall_app. split.
  - intros [[[[H1 _] H2] _] H3]. auto.
  - intros [H1 [H2 H3]].
    assert (Hsp : Forall (fun c => isspace c = true) (u " "))
      by (repeat constructor).
    auto.
Qed.

(** X3. The feedback button answers with the warning exactly when the
    text is empty or made of white space only, and with the thanks as
    soon as the text has one other character. *)
Theorem feedback_en_blanco (texto_feedback : str) :
  (en_blanco texto_feedback ->
   enviar_feedback texto_feedback
   = Warning (u "Por favor, escribe algo antes de enviar."))
  /\ (~ en_blanco texto_feedback ->
      enviar_feedback texto_feedback
      = Success (u "¡Gracias por tu feedback! (solo se muestra en pantalla, no se guarda).")).
Proof.
  unfold enviar_feedback. split; intros H.
  - apply strip_nil in H. now rewrite H.
  - destruct (strip texto_feedback) as [|c t] eqn:E; [| reflexivity].
    exfalso. apply H. now apply strip_nil.
Qed.

(* ------------------------------------------------------------------ *)
(** ** What the block lets through *)

Lemma isin_spec (c : option str) (values0 : list str) :
  isin c values0 = true <-> exists s, c = Some s /\ In s values0.
Proof.
  unfold isin. destruct c as [s|].
  - rewrite str_in_In. split.
    + intros H. now exists s.
    + intros [s' [H1 H2]]. now injection H1 as ->.
  - split; [discriminate | intros [s [H _]]; discriminate].
Qed.

Lemma cumple_filtros_spec (sel : seleccion) (f : fila) :
  cumple_filtros sel f = true <-> pasa_filtros sel f.
Proof.
  unfold cumple_filtros, pasa_filtros.
  rewrite !andb_true_iff, !isin_spec. split.
  - intros [[[H1 H2] [s [H3 H3']]] H4]. injection H3 as <-. tauto.
  - intros [H1 [H2 [H3 H4]]]. repeat split; try assumption.
    now exists (SistemaSalud f).
Qed.

Lemma filtrar_In (re_search_ci : str -> exc (str -> bool))
      (df0 : list fila) (sel : seleccion) (out : list fila) (f : fila) :
  filtrar re_search_ci df0 sel = Ok out ->
  (In f out
   <-> In f df0 /\ pasa_nombre re_search_ci sel f /\ pasa_filtros sel f).
Proof.
  unfold filtrar, pasa_nombre.
  destruct (nombre_filtro sel) as [|c q] eqn:Eq; simpl.
  - intros H. injection H as <-.
    rewrite filter_In, cumple_filtros_spec. tauto.
  - destruct (re_search_ci (c :: q)) as [busca|e]; simpl; [| discriminate].
    intros H. injection H as <-.
    rewrite !filter_In, cumple_filtros_spec. unfold nombre_coincide. split.
    + intros [[H1 H2] H3]. split; [exact H1 |]. split; [| exact H3].
      right. destruct (EstablecimientoGlosa (csv f)) as [s|]; [| discriminate].
      now exists busca, s.
    + intros [H1 [[H2 | [busca' [s [Hb [Hs Hm]]]]] H3]]; [discriminate |].
      injection Hb as <-. rewrite Hs. auto.
Qed.

Lemma take_In {A : Type} (l : list A) (p : list nat) (out : list A) (x : A) :
  take l p = Ok out -> In x out -> In x l.
Proof.
  revert out; induction p as [|i p IH]; intros out; simpl.
  - intros H; injection H as <-. intros [].
  - destruct (nth_error l i) as [y|] eqn:E; [| discriminate].
    destruct (take l p) as [ys|e]; simpl; [| discriminate].
    intros H; injection H as <-. intros [<- | Hin].
    + eapply nth_error_In. exact E.
    + now apply (IH ys).
Qed.

(** X4. Whatever positions the library's argsort returns, every row the
    block puts out is a row of the dataset that passes the text filter
    and the four categorical filters. *)
Theorem bloque_solo_filas_filtradas
        (re_search_ci : str -> exc (str -> bool))
        (argsort : list str -> list nat) (df0 : list fila) (sel : seleccion)
        (out : list fila) :
  filtrar_ordenar re_search_ci argsort df0 sel = Ok out ->
  forall f, In f out ->
    In f df0 /\ pasa_nombre re_search_ci sel f /\ pasa_filtros sel f.
Proof.
  unfold filtrar_ordenar, sort_values. intros H f Hin.
  destruct (filtrar re_search_ci df0 sel) as [filtrado|e] eqn:Ef;
    simpl in H; [| discriminate].
  destruct (nargsort argsort _ _) as [indexer|e]; simpl in H; [| discriminate].
  apply (filtrar_In _ _ _ f Ef). eapply take_In; eassumption.
Qed.

Lemma bloque_solo_filas_filtradas_witness :
  exists out,
    filtrar_ordenar re_literal Numpy.argsort df_tres (seleccion_inicial df_tres)
    = Ok out
    /\ forall f, In f out ->
         In f df_tres
         /\ pasa_nombre re_literal (seleccion_inicial df_tres) f
         /\ pasa_filtros (seleccion_inicial df_tres) f.
Proof.
  eexists. split; [reflexivity |].
  apply (@bloque_solo_filas_filtradas re_literal Numpy.argsort). reflexivity.
Defined.

(** X5. When one of the four multiselects is left without any option,
    the filter, if it returns, returns no row. *)
Theorem filtro_sin_opciones (re_search_ci : str -> exc (str -> bool))
        (df0 : list fila) (sel : seleccion) (out : list fila) :
  comunas_sel sel = [] \/ tipos_sel sel = [] \/ sistemas_sel sel = []
  \/ niveles_sel sel = [] ->
  filtrar re_search_ci df0 sel = Ok out ->
  out = [].
Proof.
  intros Hsel Hf. destruct out as [|f out]; [reflexivity |]. exfalso.
  assert (Hin : In f (f :: out)) by now left.
  apply (filtrar_In _ _ _ f Hf) in Hin.
  destruct Hin as [_ [_ [[c [_ Hc]] [[t [_ Ht]] [Hs [n [_ Hn]]]]]]].
  destruct Hsel as [H | [H | [H | H]]]; rewrite H in *; contradiction.
Qed.

Lemma filtro_sin_opciones_witness :
  tipos_sel sel_sin_tipos = []
  /\ filtrar re_literal df_tres sel_sin_tipos = Ok [].
Proof.
  split; [reflexivity |].
  destruct (filtrar re_literal df_tres sel_sin_tipos) as [out|e] eqn:E.
  - f_equal.
    apply (filtro_sin_opciones re_literal df_tres sel_sin_tipos);
      [right; left; reflexivity | exact E].
  - vm_compute in E. discriminate.
Defined.

(** X6. On a dataset in which every row has its commune, type and care
    level filled in, choosing the single commune [c] and leaving the
    other widgets untouched keeps exactly the rows of commune [c], in
    the order of the dataset. *)
Theorem filtro_una_comuna (re_search_ci : str -> exc (str -> bool))
        (df0 : list fila) (c : str) :
  forallb sin_nulos df0 = true ->
  exists out,
    filtrar re_search_ci df0 (solo_comuna c df0) = Ok out
    /\ out = filter (fun f => isin (ComunaGlosa (csv f)) [c]) df0
    /\ forall f, In f out <-> In f df0 /\ ComunaGlosa (csv f) = Some c.
Proof.
  intros Hall. eexists. split; [reflexivity |].
  assert (Heq : filter (cumple_filtros (solo_comuna c df0)) df0
                = filter (fun f => isin (ComunaGlosa (csv f)) [c]) df0).
  { apply filter_ext_in. intros f Hin.
    rewrite forallb_forall in Hall. specialize (Hall f Hin).
    unfold sin_nulos in Hall. rewrite !andb_true_iff in Hall.
    destruct Hall as [[_ Ht] Hn].
    unfold cumple_filtros, solo_comuna; simpl.
    unfold tipos, sistemas, niveles.
    rewrite (isin_opciones (fun f => TipoEstablecimientoGlosa (csv f)) df0 f Hin).
    rewrite (isin_opciones (fun f => NivelAtencionEstabglosa (csv f)) df0 f Hin).
    pose proof (isin_opciones (fun f => Some (SistemaSalud f)) df0 f Hin) as Hs.
    simpl in Hs. rewrite Hs.
    unfold presente in Ht, Hn.
    destruct (TipoEstablecimientoGlosa (csv f)); [| discriminate].
    destruct (NivelAtencionEstabglosa (csv f)); [| discriminate].
    now rewrite !andb_true_r. }
  split; [exact Heq |].
  intros f. rewrite Heq, filter_In, isin_spec. split.
  - intros [H1 [s [H2 [<- | []]]]]. auto.
  - intros [H1 H2]. split; [exact H1 |]. exists c. split; [exact H2 | now left].
Qed.

Lemma filtro_una_comuna_witness :
  forallb sin_nulos df_tres = true
  /\ exists out,
       filtrar re_literal df_tres (solo_comuna (u "Maipú") df_tres) = Ok out
       /\ out = filter (fun f => isin (ComunaGlosa (csv f)) [u "Maipú"]) df_tres
       /\ forall f, In f out
                    <-> In f df_tres /\ ComunaGlosa (csv f) = Some (u "Maipú").
Proof.
  split; [reflexivity |].
  apply (filtro_una_comuna re_literal df_tres (u "Maipú")). reflexivity.
Defined.

(** X7. On a dataset in which every row has its commune, type and care
    level filled in, the block run with the widgets untouched returns
    the rows of the dataset, each as many times as it is there, once the
    library's argsort does its duty on the key column. *)
Theorem bloque_inicial_completo (re_search_ci : str -> exc (str -> bool))
        (argsort : list str -> list nat) (df0 : list fila) :
  forallb sin_nulos df0 = true ->
  (let sel := seleccion_inicial df0 in
   es_argsort (claves_argsort (columna_orden sel) (asc sel) df0)
              (argsort (claves_argsort (columna_orden sel) (asc sel) df0))) ->
  exists out,
    filtrar_ordenar re_search_ci argsort df0 (seleccion_inicial df0) = Ok out
    /\ Permutation df0 out
    /\ length out = length df0.
Proof.
  intros Hall Harg. unfold filtrar_ordenar.
  rewrite (filtrar_inicial_completo re_search_ci df0 Hall). simpl.
  destruct (sort_values_spec argsort _ _ df0 Harg) as [out [Hs [Hp _]]].
  exists out. split; [exact Hs |]. split; [exact Hp |].
  symmetry. now apply Permutation_length.
Qed.

Lemma bloque_inicial_completo_witness :
  forallb sin_nulos df_tres = true
  /\ exists out,
       filtrar_ordenar re_literal Numpy.argsort df_tres
                       (seleccion_inicial df_tres) = Ok out
       /\ Permutation df_tres out
       /\ length out = length df_tres.
Proof.
  split; [reflexivity |].
  apply (@bloque_inicial_completo re_literal Numpy.argsort df_tres);
    [reflexivity |].
  split.
  - vm_compute. apply perm_swap.
  - vm_compute. repeat constructor.
Defined.

(* ------------------------------------------------------------------ *)
(** ** The sector column and the summary *)

Lemma sector_en_tres (lower : str -> str) (dep : pyval) :
  In (sector lower dep) SECTORES.
Proof.
  unfold sector, SECTORES. destruct dep; simpl; auto.
  destruct (contains (u "privad") (lower s)); auto.
  destruct (contains (u "municipal") (lower s) || _ || _); auto.
Qed.

Lemma cargados_sistema (lower : str -> str) (float_str : spec_float -> str)
      (parse_numeric : str -> option number) (df0 : list fila_csv)
      (df_rm : list fila) :
  cargar_datos lower float_str parse_numeric df0 = Ok df_rm ->
  forall f, In f df_rm ->
    SistemaSalud f
    = sector lower (py_of_scalar (DependenciaAdministrativa (csv f)))
    /\ In (SistemaSalud f) SECTORES.
Proof.
  rewrite cargar_datos_ok. intros H; injection H as <-. intros f Hin.
  apply In_cargados in Hin. destruct Hin as [_ [_ ->]]. simpl.
  split; [reflexivity | apply sector_en_tres].
Qed.

(** X8. The loader raises nothing and returns no more rows than the
    file has lines; in every row the sector is what the classifier
    returns for the dependency cell of the line, one of the three
    names; so the sidebar offers no sector outside these three. *)
Theorem sistema_salud_columna (lower : str -> str)
        (float_str : spec_float -> str)
        (parse_numeric : str -> option number) (df0 : list fila_csv) :
  exists df_rm,
    cargar_datos lower float_str parse_numeric df0 = Ok df_rm
    /\ length df_rm <= length df0
    /\ Forall
         (fun f =>
            clasificar lower
                       (py_of_scalar (DependenciaAdministrativa (csv f)))
            = Ok (SistemaSalud f)
            /\ In (SistemaSalud f) SECTORES)
         df_rm
    /\ incl (sistemas df_rm) SECTORES.
Proof.
  destruct (cargar_datos lower float_str parse_numeric df0) as [df_rm|e] eqn:E;
    [| rewrite cargar_datos_ok in E; discriminate].
  exists df_rm. split; [reflexivity |].
  pose proof (cargados_sistema _ _ _ _ E) as Hs.
  split; [| split].
  - rewrite cargar_datos_ok in E. injection E as <-.
    rewrite length_map.
    etransitivity; [apply filter_length_le |].
    rewrite length_combine, length_seq. lia.
  - apply Forall_forall. intros f Hin. destruct (Hs f Hin) as [H1 H2].
    split; [| exact H2]. rewrite clasificar_sector. now rewrite H1.
  - intros s Hin. unfold sistemas in Hin. apply In_opciones in Hin.
    apply in_map_iff in Hin. destruct Hin as [f [Hf Hin]].
    injection Hf as <-. now apply Hs.
Qed.

Lemma cuenta_sectores (l : list fila) :
  (forall f, In f l -> In (SistemaSalud f) SECTORES) ->
  cuenta_sistema PUBLICO l + cuenta_sistema PRIVADO l + cuenta_sistema OTRO l
  = length l.
Proof.
  unfold cuenta_sistema. induction l as [|f l IH]; intros H; [reflexivity |].
  assert (IH' := IH (fun g Hg => H g (or_intror Hg))).
  specialize (H f (or_introl eq_refl)). simpl.
  destruct H as [H | [H | [H | []]]]; rewrite <- H;
    change (str_eqb OTRO PUBLICO) with false;
    change (str_eqb OTRO PRIVADO) with false;
    change (str_eqb OTRO OTRO) with true;
    change (str_eqb PRIVADO PUBLICO) with false;
    change (str_eqb PRIVADO PRIVADO) with true;
    change (str_eqb PRIVADO OTRO) with false;
    change (str_eqb PUBLICO PUBLICO) with true;
    change (str_eqb PUBLICO PRIVADO) with false;
    change (str_eqb PUBLICO OTRO) with false;
    simpl; lia.
Qed.

(** X9. On the rows the block puts out for a loaded dataset, whatever
    the selection, the three metrics are consistent: the total is the
    number of rows, and the public and the private counts, with the
    count of the rows of sector "Otro", add up to it. *)
Theorem metricas_coherentes (lower : str -> str)
        (float_str : spec_float -> str)
        (parse_numeric : str -> option number)
        (re_search_ci : str -> exc (str -> bool))
        (argsort : list str -> list nat)
        (df0 : list fila_csv) (df_rm : list fila) (sel : seleccion)
        (out : list fila) :
  cargar_datos lower float_str parse_numeric df0 = Ok df_rm ->
  filtrar_ordenar re_search_ci argsort df_rm sel = Ok out ->
  exists publicos privados,
    metricas out = (length out, publicos, privados)
    /\ publicos + privados + cuenta_sistema OTRO out = length out
    /\ publicos + privados <= length out.
Proof.
  intros Hc Hb.
  exists (cuenta_sistema PUBLICO out), (cuenta_sistema PRIVADO out).
  assert (Hs : forall f, In f out -> In (SistemaSalud f) SECTORES).
  { intros f Hin.
    assert (Hdf : In f df_rm).
    { unfold filtrar_ordenar, sort_values in Hb.
      destruct (filtrar re_search_ci df_rm sel) as [filtrado|e] eqn:Ef;
        simpl in Hb; [| discriminate].
      destruct (nargsort argsort _ _) as [indexer|e]; simpl in Hb;
        [| discriminate].
      apply (filtrar_In _ _ _ f Ef). eapply take_In; eassumption. }
    now apply (cargados_sistema _ _ _ _ Hc). }
  pose proof (cuenta_sectores out Hs) as Hsum.
  split; [reflexivity |]. split; [exact Hsum | lia].
Qed.

Lemma metricas_coherentes_witness :
  exists out publicos privados,
    cargar_datos lower_latin float_decimal parse_entero csv_tres = Ok df_tres
    /\ filtrar_ordenar re_literal Numpy.argsort df_tres
                       (seleccion_inicial df_tres) = Ok out
    /\ metricas out = (length out, publicos, privados)
    /\ publicos + privados + cuenta_sistema OTRO out = length out
    /\ publicos + privados <= length out.
Proof.
  assert (Hc : cargar_datos lower_latin float_decimal parse_entero csv_tres
               = Ok df_tres) by reflexivity.
  assert (Hb : exists out,
             filtrar_ordenar re_literal Numpy.argsort df_tres
                             (seleccion_inicial df_tres) = Ok out)
    by (eexists; reflexivity).
  destruct Hb as [out Hb].
  destruct (metricas_coherentes _ _ _ _ _ _ _ Hc Hb) as [pu [pr H]].
  exists out, pu, pr. tauto.
Defined.

(* ------------------------------------------------------------------ *)
(** ** The map column *)

(** X10. The map column shows the notice exactly when no row it is
    given has both coordinates, an empty frame included; otherwise it
    draws, at zoom 10 and in the order of the rows, one point for each
    row that has both, and no point has a null coordinate. *)
Theorem mapa_o_aviso (df_filtrado0 : list fila) :
  ((exists msg, mostrar_mapa df_filtrado0 = MapaInfo msg)
   <-> forall f, In f df_filtrado0 -> con_coordenadas f = false)
  /\ forall puntos zoom,
       mostrar_mapa df_filtrado0 = Mapa puntos zoom ->
       zoom = 10%Z
       /\ puntos = map (fun f => (Latitud f, Longitud f))
                       (filter con_coordenadas df_filtrado0)
       /\ 1 <= length puntos
       /\ Forall (fun p => number_isna (fst p) = false
                           /\ number_isna (snd p) = false) puntos.
Proof.
  unfold mostrar_mapa, df_mapa. fold con_coordenadas.
  change (fun f => negb (number_isna (Latitud f))
                   && negb (number_isna (Longitud f))) with con_coordenadas.
  destruct (filter con_coordenadas df_filtrado0) as [|g l] eqn:E; simpl.
  - split; [| discriminate]. split; [| intros _; eexists; reflexivity].
    intros _ f Hin. destruct (con_coordenadas f) eqn:Ec; [| reflexivity].
    assert (H : In f (filter con_coordenadas df_filtrado0))
      by (apply filter_In; auto).
    rewrite E in H. destruct H.
  - split.
    + split; [intros [msg H]; discriminate |].
      intros H. assert (Hg : In g (filter con_coordenadas df_filtrado0))
        by (rewrite E; now left).
      apply filter_In in Hg. destruct Hg as [Hg1 Hg2].
      rewrite (H g Hg1) in Hg2. discriminate.
    + intros puntos zoom H. injection H as <- <-.
      split; [reflexivity |]. split; [reflexivity |]. split; [simpl; lia |].
      apply Forall_forall. intros p Hp.
      change ((Latitud g, Longitud g)
                :: map (fun f => (Latitud f, Longitud f)) l)
        with (map (fun f => (Latitud f, Longitud f)) (g :: l)) in Hp.
      rewrite <- E in Hp. apply in_map_iff in Hp.
      destruct Hp as [f [<- Hf]]. apply filter_In in Hf.
      destruct Hf as [_ Hf]. unfold con_coordenadas in Hf.
      apply andb_true_iff in Hf. rewrite !negb_true_iff in Hf. exact Hf.
Qed.

(* ------------------------------------------------------------------ *)
(** ** The chart of communes *)

Lemma In_combine_map {A B : Type} (g : A -> B) (l : list A) (k : A) (n : B) :
  In (k, n) (combine l (map g l)) -> In k l /\ n = g k.
Proof.
  induction l as [|x l IH]; simpl; [intros [] |].
  intros [H | H].
  - injection H as <- <-. auto.
  - destruct (IH H). auto.
Qed.

Lemma contar_In (s : str) (l : list str) : In s l -> 1 <= contar s l.
Proof.
  induction l as [|x l IH]; simpl; [intros [] |].
  intros [-> | H].
  - replace (str_eqb s s) with true; [lia |].
    symmetry. now apply str_eqb_eq.
  - specialize (IH H). lia.
Qed.

Lemma contar_filas (c : str) (l : list fila) :
  contar c (dropna (map (fun f => ComunaGlosa (csv f)) l))
  = length (filter (en_comuna c) l).
Proof.
  induction l as [|f l IH]; simpl; [reflexivity |].
  unfold en_comuna at 1. unfold isin, str_in.
  destruct (ComunaGlosa (csv f)) as [s|]; simpl; [| exact IH].
  rewrite orb_false_r. destruct (str_eqb s c); simpl; now rewrite IH.
Qed.

Lemma In_firstn {A : Type} (n : nat) (l : list A) (x : A) :
  In x (firstn n l) -> In x l.
Proof.
  revert l; induction n as [|n IH]; intros [|y l]; simpl; try tauto.
  intros [H | H]; [now left | right; now apply IH].
Qed.

(** X11. Whatever positions the library's argsort returns, the chart,
    when it is drawn, has at most five bars, and each bar is a commune
    of at least one of the rows, with the exact number of the rows of
    that commune; rows without commune are in no bar. *)
Theorem top_comunas_conteos (argsort_int : list nat -> list nat)
        (df_filtrado0 : list fila) (top : list (str * nat)) :
  top_comunas argsort_int df_filtrado0 = Ok top ->
  length top <= 5
  /\ forall c n, In (c, n) top ->
       n = length (filter (en_comuna c) df_filtrado0)
       /\ 1 <= n
       /\ exists f, In f df_filtrado0 /\ ComunaGlosa (csv f) = Some c.
Proof.
  unfold top_comunas, value_counts. intros H.
  set (col := map (fun f => ComunaGlosa (csv f)) df_filtrado0) in *.
  destruct (take (rev (seq 0 _)) _) as [indexer|e]; cbn [bind] in H;
    [| discriminate].
  destruct (take (combine _ _) (rev indexer)) as [conteos|e] eqn:Et;
    cbn [bind] in H; [| discriminate].
  assert (Htop : firstn 5 conteos = top) by congruence.
  clear H. subst top. split; [apply firstn_le_length |].
  intros c n Hin. apply In_firstn in Hin.
  apply (take_In _ _ (c, n) Et) in Hin. apply In_combine_map in Hin.
  destruct Hin as [Hk ->].
  unfold unique in Hk. apply In_unique_aux in Hk. destruct Hk as [Hk _].
  split; [apply contar_filas |]. split; [now apply contar_In |].
  apply In_dropna in Hk. unfold col in Hk. apply in_map_iff in Hk.
  destruct Hk as [f [Hf Hin]]. now exists f.
Qed.

Lemma top_comunas_conteos_witness :
  exists top,
    top_comunas argsort_conteos df_tres = Ok top
    /\ top = [(u "Maipú", 2); (u "Ñuñoa", 1)]
    /\ length top <= 5
    /\ forall c n, In (c, n) top ->
         n = length (filter (en_comuna c) df_tres)
         /\ 1 <= n
         /\ exists f, In f df_tres /\ ComunaGlosa (csv f) = Some c.
Proof.
  eexists. split; [vm_compute; reflexivity |]. split; [reflexivity |].
  apply (top_comunas_conteos argsort_conteos df_tres). vm_compute. reflexivity.
Defined.

(* ------------------------------------------------------------------ *)
(** ** The remote query client and its panel *)

(** The three ways a call of the client ends. *)
Lemma consultar_casos
      (requests_get : str -> list (str * pyval) -> Z -> get_result)
      (resource_id : str) (limit : Z) :
  (exists a, consultar_api_datos_gob requests_get resource_id limit
             = ([a], Ok None))
  \/ (exists t, consultar_api_datos_gob requests_get resource_id limit
                = ([], Ok (Some t)))
  \/ (exists e, consultar_api_datos_gob requests_get resource_id limit
                = ([], Raise e)).
Proof.
  remember (consultar_api_datos_gob requests_get resource_id limit) as res
    eqn:E.
  unfold consultar_api_datos_gob in E. cbv zeta in E.
  destruct (requests_get _ _ _) as [r | e].
  2:{ left. eexists. rewrite E. unfold st_write, ui_ret, ui_bind. reflexivity. }
  destruct (status_code r =? 200)%Z.
  2:{ left. eexists. rewrite E. unfold st_write, ui_ret, ui_bind, negb.
      reflexivity. }
  unfold negb at 1 in E.
  destruct (json r) as [data | e]; unfold ui_lift at 1 in E;
    unfold ui_bind at 1 in E; [| right; right; now exists e].
  destruct (py_get data (u "success") (PyBool false)) as [success | e];
    unfold ui_lift at 1 in E; unfold ui_bind at 1 in E;
    [| right; right; now exists e].
  destruct (truthy success); unfold negb at 1 in E.
  2:{ left. eexists. rewrite E. unfold st_write, ui_ret, ui_bind. reflexivity. }
  destruct (get_records data) as [records | e];
    unfold ui_lift at 1 in E; unfold ui_bind at 1 in E;
    [| right; right; now exists e].
  destruct (truthy records); unfold negb at 1 in E.
  2:{ left. eexists. rewrite E. unfold st_write, ui_ret, ui_bind. reflexivity. }
  destruct (pd_DataFrame records) as [t | e];
    unfold ui_lift, ui_ret, ui_bind in E.
  - right. left. now exists t.
  - right. right. now exists e.
Qed.

(** X12. A call of the client writes at most one message, and writes
    one exactly when it returns [None]: a frame, or an exception that
    leaves the client, comes with no message. *)
Theorem consultar_un_aviso
        (requests_get : str -> list (str * pyval) -> Z -> get_result)
        (resource_id : str) (limit : Z) :
  let r := consultar_api_datos_gob requests_get resource_id limit in
  length (fst r) <= 1
  /\ (snd r = Ok None <-> length (fst r) = 1).
Proof.
  cbv zeta.
  destruct (consultar_casos requests_get resource_id limit)
    as [[a H] | [[t H] | [e H]]]; rewrite H; simpl.
  - split; [lia | tauto].
  - split; [lia |]. split; [discriminate | lia].
  - split; [lia |]. split; [discriminate | lia].
Qed.

(** X13. The panel announces success only over a frame that has at
    least one row and one column, which the client returned without a
    message, and the number it announces is the number of rows of that
    frame; in every other case in which the client returns, the panel
    ends with the warning that there are no records to show. *)
Theorem panel_exito_con_filas
        (requests_get : str -> list (str * pyval) -> Z -> get_result)
        (resource_id_input : str) (limite_api : Z)
        (w : list aviso) (els : list elemento) :
  consultar_boton requests_get resource_id_input limite_api = (w, Ok els) ->
  (els = [Warning MSG_SIN_REGISTROS] /\ length w <= 1)
  \/ exists t,
       consultar_api_datos_gob requests_get (strip resource_id_input)
                               limite_api = ([], Ok (Some t))
       /\ w = []
       /\ els = [Success (u "Datos obtenidos correctamente desde la API.");
                 Write (u "Filas totales recibidas: **"
                          ++ str_of_Z (Z.of_nat (len t)) ++ u "**");
                 Dataframe t]
       /\ 1 <= len t
       /\ 1 <= length (columns t).
Proof.
  unfold consultar_boton.
  destruct (consultar_casos requests_get (strip resource_id_input) limite_api)
    as [[a H] | [[t H] | [e H]]]; rewrite H; unfold ui_bind.
  - unfold ui_ret. intros E. injection E as <- <-. left. split; [reflexivity |].
    simpl. lia.
  - destruct (empty t) eqn:Ee; unfold negb, ui_ret; intros E;
      injection E as <- <-.
    + left. split; [reflexivity | simpl; lia].
    + right. exists t. split; [reflexivity |]. split; [reflexivity |].
      split; [reflexivity |].
      unfold empty in Ee. apply orb_false_iff in Ee. destruct Ee as [E1 E2].
      apply Nat.eqb_neq in E1, E2. unfold len. lia.
  - discriminate.
Qed.

Lemma panel_exito_con_filas_witness :
  let red :=
    responde {| status_code := 200;
                json := Ok (cuerpo (PyList [PyDict [(u "_id", PyInt 1)];
                                            PyDict [(u "_id", PyInt 2)]])) |} in
  exists w els,
    consultar_boton red (u " abc ") 30 = (w, Ok els)
    /\ ((els = [Warning MSG_SIN_REGISTROS] /\ length w <= 1)
        \/ exists t,
             consultar_api_datos_gob red (strip (u " abc ")) 30
             = ([], Ok (Some t))
             /\ w = []
             /\ els = [Success (u "Datos obtenidos correctamente desde la API.");
                       Write (u "Filas totales recibidas: **"
                                ++ str_of_Z (Z.of_nat (len t)) ++ u "**");
                       Dataframe t]
             /\ 1 <= len t
             /\ 1 <= length (columns t)).
Proof.
  eexists. eexists. split; [vm_compute; reflexivity |].
  apply (@panel_exito_con_filas
           (responde {| status_code := 200;
                        json := Ok (cuerpo (PyList [PyDict [(u "_id", PyInt 1)];
                                                    PyDict [(u "_id", PyInt 2)]])) |})
           (u " abc ") 30).
  vm_compute. reflexivity.
Defined.

Lemma frame_of_dicts_ok (l : list pyval) :
  forallb es_dict l = true ->
  frame_of_dicts l = Ok (tabla_de_registros l).
Proof.
  intros H. unfold frame_of_dicts.
  rewrite (mapM_ok keys_of claves l); [reflexivity |].
  intros v Hv. rewrite forallb_forall in H. specialize (H v Hv).
  destruct v; try discriminate. reflexivity.
Qed.

Lemma tabla_de_registros_no_vacia (l : list pyval) :
  registros_con_campos l -> empty (tabla_de_registros l) = false.
Proof.
  intros [_ H]. destruct l as [|[| | | | | |[|[k x] d]] l]; try contradiction.
  unfold empty, tabla_de_registros, unique. cbn [index columns].
  rewrite RangeIndex_length, length_map.
  cbn [map claves concat fst app unique_aux str_in existsb].
  reflexivity.
Qed.

(** What the client returns when the service answers with a list of
    JSON objects as records. *)
Lemma consultar_registros
      (requests_get : str -> list (str * pyval) -> Z -> get_result)
      (resource_id : str) (limit : Z) (l : list pyval) :
  responde_registros (respuesta_de requests_get resource_id limit) l ->
  registros_con_campos l ->
  consultar_api_datos_gob requests_get resource_id limit
  = ([], Ok (Some (tabla_de_registros l))).
Proof.
  intros (r & d & v & Hout & Hs & Hj & Hv & Ht & Hr) Hl.
  unfold respuesta_de in Hout.
  unfold consultar_api_datos_gob. cbv zeta. rewrite Hout, Hs, Hj.
  change (200 =? 200)%Z with true.
  unfold ui_lift, negb at 1. unfold ui_bind at 1. unfold py_get at 1.
  rewrite Hv. unfold ui_bind at 1. rewrite Ht, Hr.
  unfold negb at 1. unfold ui_bind at 1.
  pose proof Hl as [Hd Hf].
  destruct l as [|[| | | | | |[|kx d0]] l]; try contradiction.
  unfold truthy. cbn [length Nat.eqb negb].
  change (pd_DataFrame (PyList (PyDict (kx :: d0) :: l)))
    with (frame_of_dicts (PyDict (kx :: d0) :: l)).
  rewrite (frame_of_dicts_ok _ Hd). reflexivity.
Qed.

(** X14. When the service answers 200 with a JSON object marked
    successful whose records are a list of JSON objects, the first of
    which has a field, the panel writes no advisory, announces success
    and the number of records, and shows the frame of those records. *)
Theorem panel_registros
        (requests_get : str -> list (str * pyval) -> Z -> get_result)
        (resource_id_input : str) (limite_api : Z) (l : list pyval) :
  responde_registros
    (respuesta_de requests_get (strip resource_id_input) limite_api) l ->
  registros_con_campos l ->
  consultar_boton requests_get resource_id_input limite_api
  = ([],
     Ok [Success (u "Datos obtenidos correctamente desde la API.");
         Write (u "Filas totales recibidas: **"
                  ++ str_of_Z (Z.of_nat (length l)) ++ u "**");
         Dataframe (tabla_de_registros l)]).
Proof.
  intros Hr Hl. unfold consultar_boton.
  rewrite (consultar_registros _ _ _ Hr Hl). unfold ui_bind.
  rewrite (tabla_de_registros_no_vacia Hl). unfold negb, ui_ret.
  unfold len, tabla_de_registros at 1. cbn [index].
  rewrite RangeIndex_length. reflexivity.
Qed.

Lemma panel_registros_witness :
  let l := [PyDict [(u "_id", PyInt 1); (u "nombre", PyStr (u "Hospital"))];
            PyDict [(u "_id", PyInt 2); (u "comuna", PyStr (u "Maipú"))]] in
  let red := responde {| status_code := 200; json := Ok (cuerpo (PyList l)) |} in
  consultar_boton red (u " abc ") 30
  = ([],
     Ok [Success (u "Datos obtenidos correctamente desde la API.");
         Write (u "Filas totales recibidas: **2**");
         Dataframe (tabla_de_registros l)]).
Proof.
  cbv zeta.
  match goal with
  | |- consultar_boton (responde ?r) ?i ?n = _ =>
      rewrite (@panel_registros (responde r) i n
                 [PyDict [(u "_id", PyInt 1); (u "nombre", PyStr (u "Hospital"))];
                  PyDict [(u "_id", PyInt 2); (u "comuna", PyStr (u "Maipú"))]])
  end.
  - vm_compute. reflexivity.
  - eexists. eexists. eexists. repeat (split; [vm_compute; reflexivity |]).
    vm_compute. reflexivity.
  - split; [reflexivity | exact I].
Defined.

(* ------------------------------------------------------------------ *)
(** ** The rows without key, the region *)

Lemma take_app_inv {A : Type} (l : list A) (p q : list nat) (out : list A) :
  take l (p ++ q) = Ok out ->
  exists o1 o2, take l p = Ok o1 /\ take l q = Ok o2 /\ out = o1 ++ o2.
Proof.
  revert out; induction p as [|i p IH]; intros out; simpl.
  - intros H. exists [], out. auto.
  - destruct (nth_error l i) as [y|]; [| discriminate].
    destruct (take l (p ++ q)) as [ys|e] eqn:E; simpl; [| discriminate].
    intros H; injection H as <-.
    destruct (IH ys eq_refl) as [o1 [o2 [H1 [H2 ->]]]].
    exists (y :: o1), o2. rewrite H1. simpl. auto.
Qed.

Lemma take_nan_positions (by_ : fila -> option str) (pre frame : list fila) :
  take (pre ++ frame) (nan_positions (length pre) (map by_ frame))
  = Ok (filter (sin_clave by_) frame).
Proof.
  revert pre; induction frame as [|f frame IH]; intros pre; simpl;
    [reflexivity |].
  specialize (IH (pre ++ [f])).
  rewrite <- app_assoc, length_app in IH. simpl in IH.
  rewrite Nat.add_1_r in IH.
  unfold sin_clave at 1. destruct (by_ f) as [k|] eqn:E; simpl.
  - exact IH.
  - rewrite nth_error_app2 by lia. rewrite Nat.sub_diag. simpl.
    now rewrite IH.
Qed.

(** X17. Whatever positions the library's argsort returns and whatever
    the direction, when the block returns, the rows that have no value
    in the key column come after all the others, in the order they have
    in the dataset. *)
Theorem filas_sin_clave_al_final
        (re_search_ci : str -> exc (str -> bool))
        (argsort : list str -> list nat) (df0 : list fila) (sel : seleccion)
        (filtrado out : list fila) :
  filtrar re_search_ci df0 sel = Ok filtrado ->
  filtrar_ordenar re_search_ci argsort df0 sel = Ok out ->
  exists con_clave,
    out = con_clave ++ filter (sin_clave (columna_orden sel)) filtrado
    /\ Forall (fun f => sin_clave (columna_orden sel) f = false) con_clave.
Proof.
  intros Hf Hb. unfold filtrar_ordenar in Hb. rewrite Hf in Hb.
  cbn [bind] in Hb. unfold sort_values, nargsort in Hb.
  set (by_ := columna_orden sel) in *.
  set (items := map by_ filtrado) in *.
  destruct (take _ (argsort _)) as [indexer|e] eqn:Et; cbn [bind] in Hb;
    [| discriminate].
  apply take_app_inv in Hb. destruct Hb as [o1 [o2 [H1 [H2 ->]]]].
  pose proof (take_nan_positions by_ [] filtrado) as Hn. simpl in Hn.
  fold items in Hn. rewrite Hn in H2. injection H2 as <-.
  exists o1. split; [reflexivity |].
  destruct (positions_spec items 0) as [Hpos _].
  assert (Hidx : forall i, In i indexer ->
            exists k, nth_error items i = Some (Some k)).
  { intros i Hi.
    assert (Hi' : In i (non_nan_positions 0 items)).
    { destruct (asc sel).
      - eapply take_In; eassumption.
      - apply in_rev. eapply take_In; eassumption. }
    clear - Hpos Hi'. induction Hpos as [|j k js ks [_ Hj] _ IH].
    - destruct Hi'.
    - destruct Hi' as [<- | Hi']; [| now apply IH].
      rewrite Nat.sub_0_r in Hj. now exists k. }
  apply take_nth_error in H1.
  assert (Hidx' : forall i, In i (if asc sel then indexer else rev indexer) ->
            exists k, nth_error items i = Some (Some k)).
  { intros i Hi. apply Hidx. destruct (asc sel); [exact Hi |].
    apply in_rev. exact Hi. }
  clear - H1 Hidx'. induction H1 as [|i f p o Hi _ IH]; constructor.
  - destruct (Hidx' i (or_introl eq_refl)) as [k Hk].
    unfold items in Hk. rewrite nth_error_map, Hi in Hk. simpl in Hk.
    injection Hk as Hk. unfold sin_clave. now rewrite Hk.
  - apply IH. intros j Hj. apply Hidx'. now right.
Qed.

Lemma filas_sin_clave_al_final_witness :
  exists out con_clave,
    filtrar re_literal df_tres (seleccion_inicial df_tres) = Ok df_tres
    /\ filtrar_ordenar re_literal Numpy.argsort df_tres
                       (seleccion_inicial df_tres) = Ok out
    /\ out = con_clave
             ++ filter (sin_clave (columna_orden (seleccion_inicial df_tres)))
                       df_tres
    /\ Forall (fun f => sin_clave (columna_orden (seleccion_inicial df_tres)) f
                        = false) con_clave.
Proof.
  assert (Hf : filtrar re_literal df_tres (seleccion_inicial df_tres)
               = Ok df_tres) by reflexivity.
  assert (Hb : exists out,
             filtrar_ordenar re_literal Numpy.argsort df_tres
                             (seleccion_inicial df_tres) = Ok out)
    by (eexists; reflexivity).
  destruct Hb as [out Hb].
  destruct (filas_sin_clave_al_final _ _ _ _ Hf Hb) as [c [H1 H2]].
  exists out, c. auto.
Defined.

(** X18. Every row the block puts out for a loaded dataset, and so
    every row of the table and every point of the map, is a line of the
    file, under the label of its position, whose region contains
    "Metropolitana". *)
Theorem filas_de_la_region (lower : str -> str)
        (float_str : spec_float -> str)
        (parse_numeric : str -> option number)
        (re_search_ci : str -> exc (str -> bool))
        (argsort : list str -> list nat)
        (df0 : list fila_csv) (df_rm : list fila) (sel : seleccion)
        (out : list fila) :
  cargar_datos lower float_str parse_numeric df0 = Ok df_rm ->
  filtrar_ordenar re_search_ci argsort df_rm sel = Ok out ->
  (forall f, In f out ->
     nth_error df0 (idx f) = Some (csv f)
     /\ exists s pre post,
          RegionGlosa (csv f) = Some s
          /\ s = pre ++ u "Metropolitana" ++ post)
  /\ incl (df_mapa out) out
  /\ length (tabla out) = length out.
Proof.
  intros Hc Hb. split; [| split].
  - intros f Hin.
    assert (Hdf : In f df_rm).
    { unfold filtrar_ordenar, sort_values in Hb.
      destruct (filtrar re_search_ci df_rm sel) as [filtrado|e] eqn:Ef;
        cbn [bind] in Hb; [| discriminate].
      destruct (nargsort argsort _ _) as [indexer|e]; cbn [bind] in Hb;
        [| discriminate].
      apply (filtrar_In _ _ _ f Ef). eapply take_In; eassumption. }
    rewrite cargar_datos_ok in Hc. injection Hc as <-.
    apply In_cargados in Hdf. destruct Hdf as [Hn [Hreg _]].
    split; [exact Hn |].
    unfold region_metropolitana, str_contains in Hreg.
    destruct (RegionGlosa (csv f)) as [s|]; [| discriminate].
    apply contains_spec in Hreg. destruct Hreg as [pre [post H]].
    now exists s, pre, post.
  - intros f Hin. unfold df_mapa in Hin. now apply filter_In in Hin.
  - unfold tabla. apply length_map.
Qed.

Lemma filas_de_la_region_witness :
  exists out,
    cargar_datos lower_latin float_decimal parse_entero csv_ejemplo
    = Ok df_ejemplo
    /\ filtrar_ordenar re_literal Numpy.argsort df_ejemplo
                       (seleccion_inicial df_ejemplo) = Ok out
    /\ (forall f, In f out ->
          nth_error csv_ejemplo (idx f) = Some (csv f)
          /\ exists s pre post,
               RegionGlosa (csv f) = Some s
               /\ s = pre ++ u "Metropolitana" ++ post)
    /\ incl (df_mapa out) out
    /\ length (tabla out) = length out.
Proof.
  assert (Hc : cargar_datos lower_latin float_decimal parse_entero csv_ejemplo
               = Ok df_ejemplo) by reflexivity.
  assert (Hb : exists out,
             filtrar_ordenar re_literal Numpy.argsort df_ejemplo
                             (seleccion_inicial df_ejemplo) = Ok out)
    by (eexists; reflexivity).
  destruct Hb as [out Hb]. exists out.
  split; [exact Hc |]. split; [exact Hb |].
  exact (filas_de_la_region _ _ _ _ _ _ _ Hc Hb).
Defined.
